(** * GoalSync: the burnout scorer of [src/utils/burnout.ts]

    The scorer is three pure functions over JavaScript numbers:
    [calculateBurnoutScore], [getBurnoutLevel] and
    [getAdaptiveGoalSuggestion].  They are embedded here twice.

    First over exact rationals, the "real numbers" of the specification:
    a [number] is a finite value and arithmetic on it is exact.  This is
    the idealisation of the program; it has no NaN, no infinities and no
    rounding error, and a division by zero yields 0.  It carries the
    properties that binary64 rounding preserves: order, ranges on the
    declared domain, the bands of the two classifiers.

    Then [calculateBurnoutScore] over the binary64 numbers themselves, each
    operation rounded as IEEE 754 prescribes.  It carries the properties
    that depend on the rounding or on the special values: the agreement
    with the algorithm of the specification, the range for arbitrary
    inputs, and the behaviour on ties. *)

From Stdlib Require Import ZArith QArith Qround Qminmax Qfield Lqa Lia.
From Stdlib Require Import String.
From Stdlib Require Import Floats.
From stdpp Require Import base option list gmap strings fin_maps.

Local Open Scope Q_scope.

(** ** The numeric primitives of the language the source uses *)

Module JSNum.

Definition number : Type := Q.

(** The relational operators [<], [<=], [>], [>=] on numbers. *)
Definition ltb (a b : number) : bool := negb (Qle_bool b a).
Definition leb (a b : number) : bool := Qle_bool a b.
Definition gtb (a b : number) : bool := ltb b a.
Definition geb (a b : number) : bool := leb b a.

(** [Math.min] and [Math.max] of two numbers. *)
Definition Math_min (a b : number) : number := if leb a b then a else b.
Definition Math_max (a b : number) : number := if leb a b then b else a.

(** [Math.round]: the nearest integer, a tie going to the integer above,
    which is [floor (x + 1/2)]. *)
Definition Math_round (x : number) : number := inject_Z (Qfloor (x + (1 # 2))).

End JSNum.

Declare Scope js_scope.
Delimit Scope js_scope with js.
Notation "a <? b" := (JSNum.ltb a b) (at level 70, no associativity) : js_scope.
Notation "a <=? b" := (JSNum.leb a b) (at level 70, no associativity) : js_scope.
Notation "a >? b" := (JSNum.gtb a b) (at level 70, no associativity) : js_scope.
Notation "a >=? b" := (JSNum.geb a b) (at level 70, no associativity) : js_scope.

(** ** [src/utils/burnout.ts] *)

Module Burnout.
Import JSNum.
Local Open Scope string_scope.
Local Open Scope Q_scope.
Local Open Scope js_scope.

(** [interface BurnoutMetrics] *)
Record BurnoutMetrics : Type := {
  stress_level : number;      (* 1-5 *)
  sleep_hours : number;       (* 0-12+ *)
  mood_level : number;        (* 1-5 *)
  time_spent_hours : number   (* 0-24 *)
}.

(** The locals of [calculateBurnoutScore], each as a function of the field
    it is computed from.  A [let x = 0] that one or two branches overwrite
    is the conditional whose last branch is [0]. *)
Definition stressScore (stress_level : number) : number :=
  ((stress_level - 1) / 4) * 4.

Definition sleepScore (sleep_hours : number) : number :=
  if sleep_hours <? 6 then 3 - (sleep_hours / 6) * 3
  else if sleep_hours >? 9 then Math_min 2 ((sleep_hours - 9) * 0.5)
  else 0.

Definition moodScore (mood_level : number) : number :=
  ((5 - mood_level) / 4) * 3.

Definition timeScore (time_spent_hours : number) : number :=
  if time_spent_hours >? 8 then Math_min 3 ((time_spent_hours - 8) * 0.3)
  else 0.

Definition totalScore (metrics : BurnoutMetrics) : number :=
  stressScore (stress_level metrics) + sleepScore (sleep_hours metrics)
  + moodScore (mood_level metrics) + timeScore (time_spent_hours metrics).

Definition calculateBurnoutScore (metrics : BurnoutMetrics) : number :=
  Math_round (Math_min 10 (Math_max 0 (totalScore metrics)) * 10) / 10.

(** The result of [getBurnoutLevel]. *)
Inductive Level : Type := low | moderate | high.

Record BurnoutInfo : Type := {
  level : Level;
  color : string;
  bgColor : string;
  message : string
}.

Definition getBurnoutLevel (score : number) : BurnoutInfo :=
  if score <=? 3 then
    {| level := low;
       color := "text-green-700";
       bgColor := "bg-green-100";
       message := "You're doing great! Keep up the healthy habits." |}
  else if score <=? 6 then
    {| level := moderate;
       color := "text-yellow-700";
       bgColor := "bg-yellow-100";
       message := "Consider taking some time to recharge and relax." |}
  else
    {| level := high;
       color := "text-red-700";
       bgColor := "bg-red-100";
       message := "High burnout detected. Please prioritize rest and self-care." |}.

Definition getAdaptiveGoalSuggestion (burnoutScore : number) : string :=
  if burnoutScore >=? 7 then
    "Consider reducing your weekly goals by 30-50% to focus on recovery."
  else if burnoutScore >=? 4 then
    "You might want to maintain current goals but add more rest periods."
  else
    "Your burnout levels look healthy - you can maintain or slightly increase your goals.".

End Burnout.

(** ** The scoring algorithm in the words of the specification

    Section 4.1 of the specification, operation [computeScore], step by
    step.  The piecewise terms are relations with one constructor per case
    the specification lists; [clamp] is the usual clamp to an interval and
    [round] is, as the specification asks, the rounding primitive of the
    reference implementation. *)

Module Spec.

Definition clamp (x lo hi : Q) : Q := Qmax lo (Qmin hi x).

Definition round (x : Q) : Q := JSNum.Math_round x.

Definition stressTerm (stressLevel : Q) : Q := (stressLevel - 1) / 4 * 4.

Inductive sleepTerm (sleepHours : Q) : Q -> Prop :=
| sleep_under : sleepHours < 6 ->
    sleepTerm sleepHours (3 - (sleepHours / 6) * 3)
| sleep_over : sleepHours > 9 ->
    sleepTerm sleepHours (Qmin 2 ((sleepHours - 9) * 0.5))
| sleep_optimal : 6 <= sleepHours <= 9 ->
    sleepTerm sleepHours 0.

Definition moodTerm (moodLevel : Q) : Q := (5 - moodLevel) / 4 * 3.

Inductive timeTerm (timeSpentHours : Q) : Q -> Prop :=
| time_over : timeSpentHours > 8 ->
    timeTerm timeSpentHours (Qmin 3 ((timeSpentHours - 8) * 0.3))
| time_otherwise : ~ timeSpentHours > 8 ->
    timeTerm timeSpentHours 0.

Definition computeScore
    (stressLevel sleepHours moodLevel timeSpentHours value : Q) : Prop :=
  exists sleep time : Q,
    sleepTerm sleepHours sleep /\ timeTerm timeSpentHours time /\
    let raw := stressTerm stressLevel + sleep + moodTerm moodLevel + time in
    value == round (clamp raw 0 10 * 10) / 10.

End Spec.

(** * The scorer in binary64

    A JavaScript number is an IEEE 754 binary64 value, and the arithmetic of
    [calculateBurnoutScore] rounds after every operation.  Where a property
    depends on that rounding, or on NaN and the infinities, it is stated of
    the embedding below, over the binary64 numbers of the kernel; the
    embedding over the rationals above is its idealisation, used for the
    properties that rounding preserves (order, ranges, the bands of the
    classifiers). *)

Module JSFloat.
Local Open Scope float_scope.

(** The number an integer literal denotes (exact below 2^53). *)
Definition of_Z (z : Z) : float :=
  match z with
  | Z0 => 0
  | Zpos _ => of_uint63 (Uint63.of_Z z)
  | Zneg p => - of_uint63 (Uint63.of_Z (Zpos p))
  end.

(** [Math.min] and [Math.max]: NaN if an argument is NaN, and [-0] below
    [+0]. *)
Definition Math_min (a b : float) : float :=
  if is_nan a || is_nan b then nan
  else if a <? b then a
  else if b <? a then b
  else if get_sign a then a else b.

Definition Math_max (a b : float) : float :=
  if is_nan a || is_nan b then nan
  else if a <? b then b
  else if b <? a then a
  else if get_sign a then b else a.

(** [Math.round]: the integer nearest to [x], the one above on a tie; NaN,
    the infinities, the zeros and the integers are returned as they are,
    and a result of zero keeps the sign of [x].  A finite [x] is
    [n * 2^e] for the integers [n] and [e] of its representation; for
    [e < 0] the result is [floor (x + 1/2)], computed on integers. *)
Definition Math_round (x : float) : float :=
  match Prim2SF x with
  | S754_finite s m e =>
      if (0 <=? e)%Z then x
      else
        let n := if s then Zneg m else Zpos m in
        let z := ((2 * n + 2 ^ (- e)) / 2 ^ (1 - e))%Z in
        if (z =? 0)%Z then (if s then neg_zero else zero) else of_Z z
  | _ => x
  end.

(** The exact value of a finite number, as a rational ([0] for NaN and the
    infinities, which have none). *)
Definition to_Q (x : float) : Q :=
  match Prim2SF x with
  | S754_finite s m e =>
      let n := if s then Zneg m else Zpos m in
      if (0 <=? e)%Z then inject_Z (n * 2 ^ e)
      else Qmake n (Z.to_pos (2 ^ (- e)))
  | _ => 0%Q
  end.

(** Two results are the same number: identical, or equal under [===]
    (which identifies [+0] and [-0]). *)
Definition same_number (a b : float) : Prop := a = b \/ (a =? b) = true.

End JSFloat.

(** ** [src/utils/burnout.ts], [calculateBurnoutScore], in binary64 *)

Module BurnoutF.
Import JSFloat.
Local Open Scope float_scope.
Local Set Warnings "-inexact-float".

Record BurnoutMetrics : Type := {
  stress_level : float;
  sleep_hours : float;
  mood_level : float;
  time_spent_hours : float
}.

Definition stressScore (stress_level : float) : float :=
  ((stress_level - 1) / 4) * 4.

Definition sleepScore (sleep_hours : float) : float :=
  if sleep_hours <? 6 then 3 - (sleep_hours / 6) * 3
  else if 9 <? sleep_hours then Math_min 2 ((sleep_hours - 9) * 0.5)
  else 0.

Definition moodScore (mood_level : float) : float :=
  ((5 - mood_level) / 4) * 3.

Definition timeScore (time_spent_hours : float) : float :=
  if 8 <? time_spent_hours then Math_min 3 ((time_spent_hours - 8) * 0.3)
  else 0.

Definition totalScore (metrics : BurnoutMetrics) : float :=
  stressScore (stress_level metrics) + sleepScore (sleep_hours metrics)
  + moodScore (mood_level metrics) + timeScore (time_spent_hours metrics).

Definition calculateBurnoutScore (metrics : BurnoutMetrics) : float :=
  Math_round (Math_min 10 (Math_max 0 (totalScore metrics)) * 10) / 10.

End BurnoutF.

(** ** The scoring algorithm of the specification, carried out in binary64

    The six steps of section 4.1 again, each operation now the binary64
    one and [0.5] and [0.3] the nearest binary64 numbers.  [min] and [round]
    are the primitives of the reference implementation; [clamp] is the
    clamp to an interval, by comparison with its two ends. *)

Module SpecF.
Import JSFloat.
Local Open Scope float_scope.
Local Set Warnings "-inexact-float".

Definition clamp (x lo hi : float) : float :=
  if x <? lo then lo else if hi <? x then hi else x.

Definition round (x : float) : float := Math_round x.

Definition min (a b : float) : float := Math_min a b.

Definition stressTerm (stressLevel : float) : float :=
  (stressLevel - 1) / 4 * 4.

Inductive sleepTerm (sleepHours : float) : float -> Prop :=
| sleep_under : (sleepHours <? 6) = true ->
    sleepTerm sleepHours (3 - (sleepHours / 6) * 3)
| sleep_over : (9 <? sleepHours) = true ->
    sleepTerm sleepHours (min 2 ((sleepHours - 9) * 0.5))
| sleep_optimal : (6 <=? sleepHours) = true -> (sleepHours <=? 9) = true ->
    sleepTerm sleepHours 0.

Definition moodTerm (moodLevel : float) : float := (5 - moodLevel) / 4 * 3.

Inductive timeTerm (timeSpentHours : float) : float -> Prop :=
| time_over : (8 <? timeSpentHours) = true ->
    timeTerm timeSpentHours (min 3 ((timeSpentHours - 8) * 0.3))
| time_otherwise : (8 <? timeSpentHours) = false ->
    timeTerm timeSpentHours 0.

Definition computeScore
    (stressLevel sleepHours moodLevel timeSpentHours value : float) : Prop :=
  exists sleep time : float,
    sleepTerm sleepHours sleep /\ timeTerm timeSpentHours time /\
    let raw := stressTerm stressLevel + sleep + moodTerm moodLevel + time in
    same_number value (round (clamp raw 0 10 * 10) / 10).

End SpecF.

(** ** The domain of the inputs (specification, section 3) *)



(** * The callers of the scorer

    The components that call the functions above, and the goal tracking
    they sit beside.  Of each component the pure part is embedded: the
    values it computes and the state it moves to.  What the database answers
    (the rows of a query, the error of an update) and what the browser
    answers (the signed-in user, the confirmation dialog, today's date) are
    arguments. *)

(** ** Values that may be undefined *)

Module JSVal.
Import JSNum.

(** Truthiness of a number: [0] is falsy, every other number is truthy. *)
Definition truthy (x : number) : bool := negb (Qeq_bool x 0).

(** [x || d] for a number [x] that may be [undefined] ([None]). *)
Definition or_else (x : option number) (d : number) : number :=
  match x with
  | Some v => if truthy v then v else d
  | None => d
  end.

(** [a <= b] and [a >= b] when [a] may be [undefined]: [undefined] converts
    to NaN, and every comparison with NaN is false. *)
Definition leb_u (a : option number) (b : number) : bool :=
  match a with Some x => leb x b | None => false end.
Definition geb_u (a : option number) (b : number) : bool :=
  match a with Some x => geb x b | None => false end.

(** The length of an array, as a number. *)
Definition length_number {A : Type} (l : list A) : number :=
  inject_Z (Z.of_nat (length l)).

End JSVal.

(** ** The rows the queries return ([src/lib/supabase.ts], [Database]) *)

Module Rows.
Import JSNum.

(** A row of [daily_completions], columns [date] and [completed]. *)
Record CompletionRow : Type := {
  date : string;
  completed : bool
}.

(** A row of [goals] with its embedded [daily_completions]. *)
Record GoalRow : Type := {
  id : string;
  title : string;
  description : option string;
  target_days : number;
  daily_completions : option (list CompletionRow)
}.

(** The numeric columns of a row of [burnout_checkins], by column name. *)
Abbreviation CheckinRow := (gmap string number).

End Rows.

(** ** [src/components/Dashboard.tsx] *)

Module Dashboard.
Import JSNum JSVal.

Record Goal : Type := {
  id : string;
  title : string;
  description : option string;
  target_days : number;
  completions : number
}.

Record TodayCheckin : Type := {
  checkin_id : string;
  stress_level : number;
  sleep_hours : number;
  mood_level : number;
  time_spent_hours : number;
  burnout_score : number
}.

(** [daily_completions?.filter((c) => c.completed).length || 0] *)
Definition completedCount (dc : option (list Rows.CompletionRow)) : number :=
  or_else (option_map (fun l => length_number (List.filter Rows.completed l)) dc) 0.

Definition transformedGoals (goalsData : option (list Rows.GoalRow)) : list Goal :=
  match goalsData with
  | Some rows =>
      map (fun goal =>
             {| id := Rows.id goal;
                title := Rows.title goal;
                description := Rows.description goal;
                target_days := Rows.target_days goal;
                completions := completedCount (Rows.daily_completions goal) |})
          rows
  | None => []
  end.

(** The width, in percent, of the progress bar of a goal. *)
Definition width (goal : Goal) : number :=
  Math_min 100 ((completions goal / target_days goal) * 100).

Definition burnoutInfo (todayCheckin : option TodayCheckin)
  : option Burnout.BurnoutInfo :=
  match todayCheckin with
  | Some c => Some (Burnout.getBurnoutLevel (burnout_score c))
  | None => None
  end.

End Dashboard.

(** ** [src/components/BurnoutCheckin.tsx] *)

Module BurnoutCheckin.
Import JSNum JSVal.

(** The four [useState] cells of the sliders. *)
Record State : Type := {
  stressLevel : number;
  sleepHours : number;
  moodLevel : number;
  timeSpentHours : number
}.

(** The initial state: [existingCheckin?.field || default]. *)
Definition initialState (existingCheckin : option Dashboard.TodayCheckin)
  : State :=
  {| stressLevel :=
       or_else (option_map Dashboard.stress_level existingCheckin) 3;
     sleepHours :=
       or_else (option_map Dashboard.sleep_hours existingCheckin) 8;
     moodLevel :=
       or_else (option_map Dashboard.mood_level existingCheckin) 3;
     timeSpentHours :=
       or_else (option_map Dashboard.time_spent_hours existingCheckin) 8 |}.

Definition metrics (s : State) : Burnout.BurnoutMetrics :=
  {| Burnout.stress_level := stressLevel s;
     Burnout.sleep_hours := sleepHours s;
     Burnout.mood_level := moodLevel s;
     Burnout.time_spent_hours := timeSpentHours s |}.

Definition burnoutScore (s : State) : number :=
  Burnout.calculateBurnoutScore (metrics s).

Definition burnoutInfo (s : State) : Burnout.BurnoutInfo :=
  Burnout.getBurnoutLevel (burnoutScore s).

(** The record [handleSubmit] writes. *)
Record CheckinData : Type := {
  user_id : string;
  date : string;
  stress_level : number;
  sleep_hours : number;
  mood_level : number;
  time_spent_hours : number;
  burnout_score : number
}.

Definition checkinData (user date : string) (s : State) : CheckinData :=
  {| user_id := user;
     date := date;
     stress_level := stressLevel s;
     sleep_hours := sleepHours s;
     mood_level := moodLevel s;
     time_spent_hours := timeSpentHours s;
     burnout_score := burnoutScore s |}.

(** The row the database hands back for a record written, [data] of
    [insert(...).select().single()]: the record with the row's id.  It is
    what the dashboard passes back as [existingCheckin]. *)
Definition returnedRow (row_id : string) (d : CheckinData)
  : Dashboard.TodayCheckin :=
  {| Dashboard.checkin_id := row_id;
     Dashboard.stress_level := stress_level d;
     Dashboard.sleep_hours := sleep_hours d;
     Dashboard.mood_level := mood_level d;
     Dashboard.time_spent_hours := time_spent_hours d;
     Dashboard.burnout_score := burnout_score d |}.

(** The bounds [min] and [max] of the four sliders. *)
Definition within_sliders (s : State) : Prop :=
  1 <= stressLevel s <= 5 /\ 0 <= sleepHours s <= 12 /\
  1 <= moodLevel s <= 5 /\ 0 <= timeSpentHours s <= 16.

End BurnoutCheckin.

(** ** The [CHECK] constraints of table [burnout_checkins] (the migration) *)

Module Schema.
Import JSNum.
Local Open Scope js_scope.


End Schema.

(** ** [src/components/GoalsManager.tsx] *)

Module GoalsManager.
Import JSNum JSVal.

Record Goal : Type := {
  id : string;
  title : string;
  description : option string;
  target_days : number;
  completions : gmap string bool   (* { [date: string]: boolean } *)
}.

(** [loadGoals]: the object [completions] is filled row by row,
    [completions[completion.date] = completion.completed]. *)
Definition completionsOf (dc : option (list Rows.CompletionRow))
  : gmap string bool :=
  fold_left
    (fun acc completion =>
       <[Rows.date completion := Rows.completed completion]> acc)
    (default [] dc) ∅.

Definition transformedGoals (goalsData : option (list Rows.GoalRow))
  : list Goal :=
  match goalsData with
  | Some rows =>
      map (fun goal =>
             {| id := Rows.id goal;
                title := Rows.title goal;
                description := Rows.description goal;
                target_days := Rows.target_days goal;
                completions := completionsOf (Rows.daily_completions goal) |})
          rows
  | None => []
  end.

(** [handleToggleCompletion]: the state [goals] it leaves.  [user] is the
    signed-in user and [error] the error of the update sent to the
    database, if any. *)
Definition handleToggleCompletion (user error : option string)
    (goals : list Goal) (goalId date : string) (currentStatus : bool)
  : list Goal :=
  match user with
  | None => goals
  | Some _ =>
      match error with
      | Some _ => goals
      | None =>
          map (fun goal =>
                 if String.eqb (id goal) goalId then
                   {| id := id goal;
                      title := title goal;
                      description := description goal;
                      target_days := target_days goal;
                      completions :=
                        <[date := negb currentStatus]> (completions goal) |}
                 else goal)
              goals
      end
  end.

(** [handleDeleteGoal]: the state [goals] it leaves.  [confirmed] is the
    answer of the confirmation dialog. *)
Definition handleDeleteGoal (user : option string) (confirmed : bool)
    (error : option string) (goals : list Goal) (goalId : string)
  : list Goal :=
  match user with
  | None => goals
  | Some _ =>
      if negb confirmed then goals
      else
        match error with
        | Some _ => goals
        | None =>
            List.filter (fun goal => negb (String.eqb (id goal) goalId)) goals
        end
  end.

(** What the list of goals renders for one goal.  [Object.values] lists the
    values of the object; the count below does not depend on their order. *)
Definition completedDays (goal : Goal) : number :=
  length_number
    (List.filter (fun b : bool => b) (map snd (map_to_list (completions goal)))).

Definition progressPercentage (goal : Goal) : number :=
  Math_min 100 ((completedDays goal / target_days goal) * 100).


(** [goal.completions[dateStr] || false] *)
Definition isCompleted (goal : Goal) (dateStr : string) : bool :=
  match completions goal !! dateStr with
  | Some b => b || false
  | None => false
  end.

End GoalsManager.

(** ** [src/utils/burnout.ts], called on a value that may be undefined

    The same two functions, as they run when the argument is a property
    that the object read from may not have. *)

Module Untyped.
Import JSNum JSVal.
Local Open Scope string_scope.

Definition getBurnoutLevel (score : option number) : Burnout.BurnoutInfo :=
  if leb_u score 3 then
    {| Burnout.level := Burnout.low;
       Burnout.color := "text-green-700";
       Burnout.bgColor := "bg-green-100";
       Burnout.message := "You're doing great! Keep up the healthy habits." |}
  else if leb_u score 6 then
    {| Burnout.level := Burnout.moderate;
       Burnout.color := "text-yellow-700";
       Burnout.bgColor := "bg-yellow-100";
       Burnout.message := "Consider taking some time to recharge and relax." |}
  else
    {| Burnout.level := Burnout.high;
       Burnout.color := "text-red-700";
       Burnout.bgColor := "bg-red-100";
       Burnout.message :=
         "High burnout detected. Please prioritize rest and self-care." |}.

Definition getAdaptiveGoalSuggestion (burnoutScore : option number) : string :=
  if geb_u burnoutScore 7 then
    "Consider reducing your weekly goals by 30-50% to focus on recovery."
  else if geb_u burnoutScore 4 then
    "You might want to maintain current goals but add more rest periods."
  else
    "Your burnout levels look healthy - you can maintain or slightly increase your goals.".

End Untyped.

(** ** The [Analytics] component *)

Module Analytics.
Import JSNum JSVal.
Local Open Scope js_scope.










(** [burnoutTrend.length > 0
      ? burnoutTrend[burnoutTrend.length - 1].burnoutScore : 0];
    the property read is [undefined] ([None]) on a row without it. *)
Definition latestBurnoutScore (burnoutTrend : list Rows.CheckinRow)
  : option number :=
  if length_number burnoutTrend >? 0
  then match burnoutTrend !! (length burnoutTrend - 1)%nat with
       | Some row => row !! "burnoutScore"%string
       | None => None
       end
  else Some 0.

Definition burnoutInfo (burnoutTrend : list Rows.CheckinRow)
  : Burnout.BurnoutInfo :=
  Untyped.getBurnoutLevel (latestBurnoutScore burnoutTrend).

Definition adaptiveSuggestion (burnoutTrend : list Rows.CheckinRow) : string :=
  Untyped.getAdaptiveGoalSuggestion (latestBurnoutScore burnoutTrend).

(** The columns the trend query selects:
    [select('date, burnout_score, stress_level, mood_level, sleep_hours')];
    [date] is a string, the other four are the numeric columns of a row. *)
Definition selected_columns : list string :=
  ["burnout_score"; "stress_level"; "mood_level"; "sleep_hours"]%string.

Definition from_trend_query (row : Rows.CheckinRow) : Prop :=
  forall key : string, is_Some (row !! key) <-> key ∈ selected_columns.

End Analytics.

(** ** The order of the levels *)


(** * Properties of the numeric primitives *)

Section Primitives.
Import JSNum.
Local Open Scope js_scope.

Lemma leb_true (a b : number) : (a <=? b) = true <-> a <= b.
Proof. unfold leb. apply Qle_bool_iff. Qed.

Lemma leb_false (a b : number) : (a <=? b) = false <-> b < a.
Proof.
  unfold leb. split; intro H.
  - apply Qnot_le_lt. intro L. apply Qle_bool_iff in L. congruence.
  - destruct (Qle_bool a b) eqn:E; [|reflexivity].
    apply Qle_bool_iff in E. lra.
Qed.

Lemma ltb_true (a b : number) : (a <? b) = true <-> a < b.
Proof.
  unfold ltb. rewrite Bool.negb_true_iff. apply (leb_false b a).
Qed.

Lemma ltb_false (a b : number) : (a <? b) = false <-> b <= a.
Proof.
  unfold ltb. rewrite Bool.negb_false_iff. apply (leb_true b a).
Qed.

Lemma gtb_true (a b : number) : (a >? b) = true <-> b < a.
Proof. unfold gtb. apply ltb_true. Qed.

Lemma gtb_false (a b : number) : (a >? b) = false <-> a <= b.
Proof. unfold gtb. apply ltb_false. Qed.


Lemma geb_false (a b : number) : (a >=? b) = false <-> a < b.
Proof. unfold geb. apply leb_false. Qed.

(** Each comparison decides its relation. *)
Lemma leb_cases (a b : number) :
  (a <= b /\ (a <=? b) = true) \/ (b < a /\ (a <=? b) = false).
Proof.
  destruct (a <=? b) eqn:E.
  - left. split; [apply leb_true; exact E | reflexivity].
  - right. split; [apply leb_false; exact E | reflexivity].
Qed.

Lemma Math_min_cases (a b : number) :
  (a <= b /\ Math_min a b = a) \/ (b < a /\ Math_min a b = b).
Proof.
  unfold Math_min. destruct (leb_cases a b) as [[L E]|[L E]]; rewrite E; auto.
Qed.

Lemma Math_max_cases (a b : number) :
  (a <= b /\ Math_max a b = b) \/ (b < a /\ Math_max a b = a).
Proof.
  unfold Math_max. destruct (leb_cases a b) as [[L E]|[L E]]; rewrite E; auto.
Qed.





#[global] Instance Math_round_comp : Proper (Qeq ==> eq) Math_round.
Proof.
  intros x y E. unfold Math_round. f_equal. apply Qfloor_comp.
  rewrite E. reflexivity.
Qed.



End Primitives.

(** * Properties of the scorer *)

Section Scorer.
Import JSNum Burnout.
Local Open Scope js_scope.

(** [Math.min] and [Math.max] are the minimum and maximum of the order. *)
Lemma Math_min_eq_Qmin (a b : number) : Math_min a b = Qmin a b.
Proof.
  unfold Math_min, leb, Qmin, GenericMinMax.gmin.
  destruct (a ?= b) eqn:C.
  - apply Qeq_alt in C.
    destruct (Qle_bool a b) eqn:E; [reflexivity|].
    apply (leb_false a b) in E. lra.
  - apply Qlt_alt in C.
    destruct (Qle_bool a b) eqn:E; [reflexivity|].
    apply (leb_false a b) in E. lra.
  - apply Qgt_alt in C.
    destruct (Qle_bool a b) eqn:E; [|reflexivity].
    apply (leb_true a b) in E. lra.
Qed.

Lemma clamp_eq_spec (t : number) :
  Math_min 10 (Math_max 0 t) == Spec.clamp t 0 10.
Proof.
  unfold Spec.clamp.
  destruct (Math_max_cases 0 t) as [[L E]|[L E]]; rewrite E;
  destruct (Math_min_cases 10 t) as [[L' E']|[L' E']];
  destruct (Math_min_cases 10 0) as [[L0 E0]|[L0 E0]];
  rewrite ?E', ?E0;
  destruct (Q.min_spec 10 t) as [[M EM]|[M EM]]; rewrite EM;
  destruct (Q.max_spec 0 10) as [[N EN]|[N EN]];
  destruct (Q.max_spec 0 t) as [[N' EN']|[N' EN']];
  rewrite ?EN, ?EN'; lra.
Qed.




End Scorer.

(** * Properties of the binary64 numbers *)

Section Binary64.
Import JSFloat.
Local Open Scope float_scope.

(** The comparison of the IEEE 754 specification: a number that is not NaN
    equals itself, and swapping the arguments reverses the answer. *)
Lemma SFcompare_refl (x : spec_float) :
  x <> S754_nan -> SFcompare x x = Some Eq.
Proof.
  destruct x as [s|s| |s m e]; intro H; simpl; try reflexivity.
  - destruct s; reflexivity.
  - contradiction.
  - rewrite Z.compare_refl, Pos.compare_cont_refl. destruct s; reflexivity.
Qed.

Lemma SFcompare_antisym (x y : spec_float) :
  SFcompare y x = option_map CompOpp (SFcompare x y).
Proof.
  destruct x as [s|s| |s m e], y as [s'|s'| |s' m' e']; simpl;
    try reflexivity; try (destruct s; reflexivity);
    try (destruct s'; reflexivity); try (destruct s, s'; reflexivity).
  assert (Pos.compare_cont Eq m' m = CompOpp (Pos.compare_cont Eq m m')) as P
    by (rewrite Pos.compare_cont_antisym; reflexivity).
  rewrite (Z.compare_antisym e e'), P.
  destruct s, s'; simpl; try reflexivity;
    destruct (e ?= e')%Z; simpl; try reflexivity;
    destruct (Pos.compare_cont Eq m m'); reflexivity.
Qed.

(** [is_nan], which is [x <> x], is false exactly on the numbers whose
    representation is not NaN. *)
Lemma is_nan_Prim2SF (x : float) :
  is_nan x = false <-> Prim2SF x <> S754_nan.
Proof.
  unfold is_nan. rewrite FloatAxioms.eqb_spec. unfold SFeqb. split.
  - intros H E. rewrite E in H. simpl in H. discriminate.
  - intro H. rewrite (SFcompare_refl _ H). reflexivity.
Qed.

(** For numbers that are not NaN, [x < y] fails exactly when [y <= x]. *)
Lemma ltb_false_leb (x y : float) :
  is_nan x = false -> is_nan y = false ->
  ((x <? y) = false <-> (y <=? x) = true).
Proof.
  intros Hx Hy. apply is_nan_Prim2SF in Hx. apply is_nan_Prim2SF in Hy.
  rewrite FloatAxioms.ltb_spec, FloatAxioms.leb_spec. unfold SFltb, SFleb.
  rewrite (SFcompare_antisym (Prim2SF x) (Prim2SF y)).
  destruct (SFcompare (Prim2SF x) (Prim2SF y)) as [[| |]|] eqn:C; simpl;
    try (split; [reflexivity || discriminate | reflexivity || discriminate]).
  exfalso.
  destruct (Prim2SF x) as [s|s| |s m e], (Prim2SF y) as [s'|s'| |s' m' e'];
    simpl in C; try discriminate; contradiction.
Qed.

(** A binary64 number is NaN, a zero, an infinity, or finite and not
    zero. *)
Lemma float_cases (x : float) :
  x = nan \/ x = zero \/ x = neg_zero \/ x = infinity \/ x = neg_infinity \/
  exists (s : bool) (m : positive) (e : Z), Prim2SF x = S754_finite s m e.
Proof.
  destruct (Prim2SF x) as [s|s| |s m e] eqn:E.
  - destruct s; [right; right; left | right; left];
      apply Prim2SF_inj; rewrite E; reflexivity.
  - destruct s; [do 4 right; left | do 3 right; left];
      apply Prim2SF_inj; rewrite E; reflexivity.
  - left. apply Prim2SF_inj. rewrite E. reflexivity.
  - do 5 right. eauto.
Qed.

Lemma finite_not_nan (x : float) (s : bool) (m : positive) (e : Z) :
  Prim2SF x = S754_finite s m e -> is_nan x = false.
Proof. intro E. apply is_nan_Prim2SF. rewrite E. discriminate. Qed.

(** A finite number that is not zero is below 0 or above it, by its
    sign. *)
Lemma finite_vs_zero (x : float) (s : bool) (m : positive) (e : Z) :
  Prim2SF x = S754_finite s m e -> (x <? 0) = s /\ (0 <? x) = negb s.
Proof.
  intro E. rewrite !FloatAxioms.ltb_spec, E.
  change (Prim2SF 0) with (S754_zero false).
  destruct s; split; reflexivity.
Qed.

(** The clamp of the source against the clamp by comparison: the same
    number, and the same value except at [-0], which the source turns into
    [+0]. *)
Lemma clamp_source_spec (t : float) :
  Math_min 10 (Math_max 0 t) = SpecF.clamp t 0 10 \/
  (Math_min 10 (Math_max 0 t) = zero /\ SpecF.clamp t 0 10 = neg_zero).
Proof.
  destruct (float_cases t) as [->|[->|[->|[->|[->|(s & m & e & E)]]]]];
    try (left; reflexivity); try (right; split; reflexivity).
  destruct (finite_vs_zero t s m e E) as [L G].
  assert (N := finite_not_nan t s m e E).
  left. unfold SpecF.clamp. rewrite L.
  unfold Math_max. rewrite N, G, L.
  change (is_nan 0) with false. cbn [orb].
  destruct s; cbn [negb].
  - reflexivity.
  - unfold Math_min. rewrite N. change (is_nan 10) with false. cbn [orb].
    destruct (10 <? t); [reflexivity|].
    destruct (t <? 10); reflexivity.
Qed.


(** The first two cases of the sleep step exclude each other. *)
Lemma above_9_not_below_6 (h : float) : (9 <? h) = true -> (h <? 6) = false.
Proof.
  destruct (float_cases h) as [->|[->|[->|[->|[->|(s & m & e & E)]]]]];
    try (intro H; reflexivity || discriminate H).
  rewrite !FloatAxioms.ltb_spec, E.
  change (Prim2SF 9) with (S754_finite false 5066549580791808 (-49)).
  change (Prim2SF 6) with (S754_finite false 6755399441055744 (-50)).
  unfold SFltb, SFcompare. destruct s; [discriminate|].
  destruct (Z.compare_spec (-49) e) as [<-|L|L]; try discriminate.
  - intros _. reflexivity.
  - intros _. destruct (Z.compare_spec e (-50)) as [->|K|K];
      try lia; reflexivity.
Qed.

(** ** The terms of the source against the terms of the specification *)

Section RefinementF.
Import BurnoutF.

Lemma sleepScore_sleepTermF (h : float) :
  is_nan h = false -> SpecF.sleepTerm h (sleepScore h).
Proof.
  intro N. unfold sleepScore.
  destruct (h <? 6) eqn:U; [apply SpecF.sleep_under; exact U|].
  destruct (9 <? h) eqn:O; [apply SpecF.sleep_over; exact O|].
  apply SpecF.sleep_optimal.
  - apply (ltb_false_leb h 6 N eq_refl). exact U.
  - apply (ltb_false_leb 9 h eq_refl N). exact O.
Qed.

Lemma sleepTermF_unique (h v : float) :
  is_nan h = false -> SpecF.sleepTerm h v -> v = sleepScore h.
Proof.
  intros N [U|O|L R]; unfold sleepScore.
  - rewrite U. reflexivity.
  - rewrite (above_9_not_below_6 h O), O. reflexivity.
  - apply (ltb_false_leb h 6 N eq_refl) in L.
    apply (ltb_false_leb 9 h eq_refl N) in R.
    rewrite L, R. reflexivity.
Qed.

Lemma timeScore_timeTermF (h : float) : SpecF.timeTerm h (timeScore h).
Proof.
  unfold timeScore. destruct (8 <? h) eqn:O.
  - apply SpecF.time_over. exact O.
  - apply SpecF.time_otherwise. exact O.
Qed.

Lemma timeTermF_unique (h v : float) :
  SpecF.timeTerm h v -> v = timeScore h.
Proof. intros [O|O]; unfold timeScore; rewrite O; reflexivity. Qed.

Lemma eqb_neg_zero (v : float) : (v =? neg_zero) = (v =? zero).
Proof.
  rewrite !FloatAxioms.eqb_spec.
  change (Prim2SF neg_zero) with (S754_zero true).
  change (Prim2SF zero) with (S754_zero false).
  destruct (Prim2SF v) as [s|s| |s m e]; reflexivity.
Qed.

(** The last line of the source against the last step of the
    specification, on the same sum. *)
Lemma rounded_clamp_same (t v : float) :
  same_number (Math_round (Math_min 10 (Math_max 0 t) * 10) / 10)
              (SpecF.round (SpecF.clamp t 0 10 * 10) / 10) /\
  (same_number v (SpecF.round (SpecF.clamp t 0 10 * 10) / 10) ->
   same_number v (Math_round (Math_min 10 (Math_max 0 t) * 10) / 10)).
Proof.
  unfold SpecF.round.
  destruct (clamp_source_spec t) as [E|[E0 E1]].
  - rewrite E. split; [left; reflexivity | auto].
  - rewrite E0, E1. split; [right; reflexivity|].
    intros [->|H]; right; [reflexivity|].
    change (Math_round (neg_zero * 10) / 10) with neg_zero in H.
    change (Math_round (zero * 10) / 10) with zero.
    rewrite <- eqb_neg_zero. exact H.
Qed.

End RefinementF.

(** ** The numbers halfway between two tenths *)

Section Ties.
Import BurnoutF.







(** A property of the integers from 0 to [n-1], case by case. *)
Lemma Z_range_cases (P : Z -> Prop) (n : nat) :
  (forall i : nat, (i < n)%nat -> P (Z.of_nat i)) ->
  forall j : Z, (0 <= j < Z.of_nat n)%Z -> P j.
Proof.
  intros H j J. rewrite <- (Z2Nat.id j) by lia. apply H. lia.
Qed.




End Ties.
End Binary64.

(** ** Rounding to the format *)

Section Binary64Rounding.
Import JSFloat.
Local Open Scope Z_scope.

(** The number of binary digits of a mantissa. *)
Lemma digits2_pos_bounds (p : positive) :
  2 ^ (Zpos (digits2_pos p) - 1) <= Zpos p < 2 ^ Zpos (digits2_pos p).
Proof.
  induction p as [p IH|p IH|]; simpl digits2_pos.
  - rewrite Pos2Z.inj_succ, (Pos2Z.inj_xI p).
    replace (Z.succ (Zpos (digits2_pos p)) - 1)
      with (Z.succ (Zpos (digits2_pos p) - 1)) by lia.
    rewrite !Z.pow_succ_r by lia.
    set (A := 2 ^ (Zpos (digits2_pos p) - 1)) in *.
    set (B := 2 ^ Zpos (digits2_pos p)) in *. clearbody A B. lia.
  - rewrite Pos2Z.inj_succ, (Pos2Z.inj_xO p).
    replace (Z.succ (Zpos (digits2_pos p)) - 1)
      with (Z.succ (Zpos (digits2_pos p) - 1)) by lia.
    rewrite !Z.pow_succ_r by lia.
    set (A := 2 ^ (Zpos (digits2_pos p) - 1)) in *.
    set (B := 2 ^ Zpos (digits2_pos p)) in *. clearbody A B. lia.
  - change (2 ^ (1 - 1)) with 1. change (2 ^ 1) with 2. lia.
Qed.

Lemma Zdigits2_le (M d : Z) :
  0 <= M -> 0 <= d -> M < 2 ^ d -> Zdigits2 M <= d.
Proof.
  intros M0 D H. destruct M as [|p|p]; simpl; try lia.
  destruct (digits2_pos_bounds p) as [L _].
  destruct (Z_le_gt_dec (Zpos (digits2_pos p)) d) as [K|K]; [exact K|].
  exfalso.
  assert (2 ^ d <= 2 ^ (Zpos (digits2_pos p) - 1))
    by (apply Z.pow_le_mono_r; lia).
  lia.
Qed.

(** Shifting a mantissa right, once and [p] times: division by 2 and by
    [2^p]. *)
Lemma shr_1_m (mrs : shr_record) :
  0 <= shr_m mrs -> shr_m (shr_1 mrs) = shr_m mrs / 2.
Proof.
  destruct mrs as [m r s]. simpl shr_m. intro H.
  rewrite <- Z.div2_div.
  destruct m as [|[p|p|]|p]; try reflexivity; lia.
Qed.

Lemma iter_pos_shr_m (p : positive) :
  forall mrs : shr_record,
    0 <= shr_m mrs ->
    shr_m (SpecFloat.iter_pos shr_1 p mrs) = shr_m mrs / 2 ^ Zpos p.
Proof.
  induction p as [p IH|p IH|]; intros mrs H; simpl SpecFloat.iter_pos.
  - assert (0 <= shr_m (shr_1 mrs)) as H1
      by (rewrite shr_1_m by exact H; apply Z.div_pos; lia).
    assert (0 <= shr_m (SpecFloat.iter_pos shr_1 p (shr_1 mrs))) as H2
      by (rewrite IH by exact H1; apply Z.div_pos; [exact H1|];
          apply Z.pow_pos_nonneg; lia).
    rewrite (IH _ H2), (IH _ H1), (shr_1_m _ H).
    assert (0 < 2 ^ Zpos p) as P by (apply Z.pow_pos_nonneg; lia).
    rewrite !Z.div_div by lia.
    f_equal. rewrite (Pos2Z.inj_xI p).
    replace (2 * Zpos p + 1) with (1 + Zpos p + Zpos p) by lia.
    rewrite !Z.pow_add_r by lia. change (2 ^ 1) with 2. ring.
  - assert (0 <= shr_m (SpecFloat.iter_pos shr_1 p mrs)) as H2
      by (rewrite IH by exact H; apply Z.div_pos; [exact H|];
          apply Z.pow_pos_nonneg; lia).
    rewrite (IH _ H2), (IH _ H).
    assert (0 < 2 ^ Zpos p) as P by (apply Z.pow_pos_nonneg; lia).
    rewrite !Z.div_div by lia.
    f_equal. rewrite (Pos2Z.inj_xO p).
    replace (2 * Zpos p) with (Zpos p + Zpos p) by lia.
    rewrite !Z.pow_add_r by lia. ring.
  - apply shr_1_m. exact H.
Qed.

Lemma shr_record_of_loc_m (M : Z) (l : location) :
  shr_m (shr_record_of_loc M l) = M.
Proof. destruct l as [|[| |]]; reflexivity. Qed.

(** The shift that brings a mantissa to the precision of the format:
    the new exponent, and the mantissa divided by the power of two between
    the exponents. *)
Lemma shr_fexp_spec (M E : Z) (l : location) :
  0 <= M ->
  let E' := Z.max E (fexp prec emax (Zdigits2 M + E)) in
  snd (shr_fexp prec emax M E l) = E' /\
  shr_m (fst (shr_fexp prec emax M E l)) = M / 2 ^ (E' - E).
Proof.
  intros H E'. unfold shr_fexp, shr.
  destruct (fexp prec emax (Zdigits2 M + E) - E) as [|p|p] eqn:N; simpl fst;
    simpl snd.
  - assert (E' = E) as -> by (unfold E'; lia).
    rewrite Z.sub_diag, shr_record_of_loc_m. change (2 ^ 0) with 1.
    rewrite Z.div_1_r. split; reflexivity.
  - assert (E' = E + Zpos p) as -> by (unfold E'; lia).
    split; [reflexivity|].
    rewrite iter_pos_shr_m by (rewrite shr_record_of_loc_m; exact H).
    rewrite shr_record_of_loc_m. f_equal. f_equal. lia.
  - assert (E' = E) as -> by (unfold E'; lia).
    rewrite Z.sub_diag, shr_record_of_loc_m. change (2 ^ 0) with 1.
    rewrite Z.div_1_r. split; reflexivity.
Qed.

(** Rounding to nearest keeps the truncated mantissa or adds one. *)
Lemma round_nearest_even_bounds (m : Z) (l : location) :
  m <= round_nearest_even m l <= m + 1.
Proof.
  destruct l as [|[| |]]; simpl; try lia. destruct (Z.even m); lia.
Qed.

(** A value of at most 100 is represented with an exponent of at most
    -46. *)
Lemma fexp_below (M E : Z) :
  0 <= M -> E <= - 46 -> M <= 100 * 2 ^ (- E) ->
  fexp prec emax (Zdigits2 M + E) <= - 46.
Proof.
  intros M0 EL B.
  assert (Zdigits2 M <= 7 - E) as D.
  { apply Zdigits2_le; [exact M0 | lia |].
    replace (7 - E) with (7 + - E) by lia.
    rewrite Z.pow_add_r by lia. change (2 ^ 7) with 128.
    assert (0 < 2 ^ (- E)) by (apply Z.pow_pos_nonneg; lia). lia. }
  unfold fexp, emin, prec, emax. lia.
Qed.

(** Rounding to the format keeps a value below 100 at most 100: the
    result of [binary_round_aux] on a mantissa and exponent whose value is
    below 100 is a zero or a finite number of value at most 100. *)
Lemma binary_round_aux_below (s : bool) (M E : Z) (l : location) :
  0 <= M -> E <= - 46 -> M < 100 * 2 ^ (- E) ->
  binary_round_aux prec emax s M E l = S754_zero s \/
  exists (m' : positive) (e' : Z),
    binary_round_aux prec emax s M E l = S754_finite s m' e' /\
    e' <= - 46 /\ Zpos m' <= 100 * 2 ^ (- e').
Proof.
  intros M0 EL B. unfold binary_round_aux.
  destruct (shr_fexp_spec M E l M0) as [S1e S1m].
  destruct (shr_fexp prec emax M E l) as [mrs1 e1].
  simpl fst in S1m. simpl snd in S1e. rewrite <- S1e in S1m.
  assert (F1 := fexp_below M E M0 EL ltac:(lia)).
  assert (E <= e1 <= - 46) as E1 by lia.
  assert (0 < 2 ^ (e1 - E)) as P1 by (apply Z.pow_pos_nonneg; lia).
  assert (0 < 2 ^ (- e1)) as Q1 by (apply Z.pow_pos_nonneg; lia).
  assert (2 ^ (- E) = 2 ^ (e1 - E) * 2 ^ (- e1)) as Split1
    by (rewrite <- Z.pow_add_r by lia; f_equal; lia).
  assert (0 <= shr_m mrs1 < 100 * 2 ^ (- e1)) as B1.
  { rewrite S1m. split; [apply Z.div_pos; lia|].
    apply Z.div_lt_upper_bound; [exact P1|].
    rewrite Split1 in B. lia. }
  assert (R := round_nearest_even_bounds (shr_m mrs1)
                 (loc_of_shr_record mrs1)).
  set (m2 := round_nearest_even (shr_m mrs1) (loc_of_shr_record mrs1)) in *.
  assert (0 <= m2) as M2 by lia.
  assert (m2 <= 100 * 2 ^ (- e1)) as B2 by lia.
  destruct (shr_fexp_spec m2 e1 loc_Exact M2) as [S2e S2m].
  destruct (shr_fexp prec emax m2 e1 loc_Exact) as [mrs2 e2].
  simpl fst in S2m. simpl snd in S2e. rewrite <- S2e in S2m.
  assert (F2 := fexp_below m2 e1 M2 ltac:(lia) B2).
  assert (e1 <= e2 <= - 46) as E2 by lia.
  assert (0 < 2 ^ (e2 - e1)) as P2 by (apply Z.pow_pos_nonneg; lia).
  assert (0 < 2 ^ (- e2)) as Q2 by (apply Z.pow_pos_nonneg; lia).
  assert (2 ^ (- e1) = 2 ^ (e2 - e1) * 2 ^ (- e2)) as Split2
    by (rewrite <- Z.pow_add_r by lia; f_equal; lia).
  assert (0 <= shr_m mrs2 <= 100 * 2 ^ (- e2)) as B3.
  { rewrite S2m. split; [apply Z.div_pos; lia|].
    apply Z.div_le_upper_bound; [exact P2|].
    rewrite Split2 in B2. lia. }
  destruct (shr_m mrs2) as [|m3|m3]; [left; reflexivity | | lia].
  right. exists m3, e2.
  assert ((e2 <=? emax - prec) = true) as -> by (apply Z.leb_le; unfold emax, prec; lia).
  repeat split; lia.
Qed.


(** A finite binary64 number is below 2^53 times its unit. *)
Lemma valid_mantissa_bound (x : float) (s : bool) (m : positive) (e : Z) :
  Prim2SF x = S754_finite s m e -> Zpos m < 2 ^ 53.
Proof.
  intro E. assert (V := Prim2SF_valid x). rewrite E in V.
  simpl in V. unfold bounded in V. apply andb_true_iff in V as [V _].
  unfold canonical_mantissa in V. apply Z.eqb_eq in V.
  destruct (digits2_pos_bounds m) as [_ U].
  assert (Zpos (digits2_pos m) <= 53) as D
    by (unfold fexp, emin, prec, emax in V; lia).
  assert (2 ^ Zpos (digits2_pos m) <= 2 ^ 53)
    by (apply Z.pow_le_mono_r; lia).
  lia.
Qed.

(** [<] on two positive finite numbers: by exponent, then by mantissa. *)
Lemma SFltb_positive (m1 m2 : positive) (e1 e2 : Z) :
  SFltb (S754_finite false m1 e1) (S754_finite false m2 e2) =
  match e1 ?= e2 with
  | Lt => true
  | Gt => false
  | Eq => match (m1 ?= m2)%positive with Lt => true | _ => false end
  end.
Proof.
  unfold SFltb. cbn [SFcompare]. unfold Pos.compare.
  destruct (e1 ?= e2); reflexivity.
Qed.

(** A positive number that is not above 10: it is 10, or its
    representation is below that of 10. *)
Lemma at_most_10_representation (t : float) (m : positive) (e : Z) :
  Prim2SF t = S754_finite false m e ->
  (10 <? t)%float = false ->
  t = 10%float \/
  e <= - 49 /\ Zpos m < 5629499534213120 * 2 ^ (- 49 - e).
Proof.
  intros E L.
  assert (MB := valid_mantissa_bound t false m e E).
  rewrite FloatAxioms.ltb_spec, E in L.
  change (Prim2SF 10) with (S754_finite false 5629499534213120 (-49)) in L.
  rewrite SFltb_positive in L.
  destruct (Z.compare_spec (-49) e) as [<-|K|K];
    [ | discriminate L | ].
  - destruct (5629499534213120 ?= m)%positive eqn:C;
      [ | discriminate L | ].
    + apply Pos.compare_eq in C. left.
      apply Prim2SF_inj. rewrite E, <- C. reflexivity.
    + apply Pos.compare_gt_iff in C.
      assert (Zpos m < 5629499534213120) as K by exact C. clear C.
      right. change (2 ^ (-49 - -49)) with 1. lia.
  - right. split; [lia|].
    assert (2 ^ 1 <= 2 ^ (- 49 - e)) as P
      by (apply Z.pow_le_mono_r; lia).
    change (2 ^ 1) with 2 in P. change (2 ^ 53) with 9007199254740992 in MB.
    lia.
Qed.

(** [Math.round (t * 10)] for a positive [t] that is at most 10: a whole
    number between 0 and 100. *)
Lemma rounded_tenths_of_positive (t : float) (m : positive) (e : Z) :
  Prim2SF t = S754_finite false m e ->
  (10 <? t)%float = false ->
  exists k : Z, 0 <= k <= 100 /\ Math_round (t * 10) = of_Z k.
Proof.
  intros E L.
  destruct (at_most_10_representation t m e E L) as [->|[EL B]].
  - (* t is 10 *)
    exists 100. split; [lia | vm_compute; reflexivity].
  - (* t is below 10 *)
    assert (Prim2SF (t * 10) =
            binary_round_aux prec emax false
              (Zpos (m * 5629499534213120)) (e + - 49) loc_Exact) as Ex.
    { rewrite FloatAxioms.mul_spec, E.
      change (Prim2SF 10) with (S754_finite false 5629499534213120 (-49)).
      reflexivity. }
    destruct (binary_round_aux_below false (Zpos (m * 5629499534213120))
                (e + - 49) loc_Exact) as [Z0|(m' & e' & F & E' & B')].
    + lia.
    + lia.
    + rewrite Pos2Z.inj_mul.
      replace (- (e + - 49)) with (98 + (- 49 - e)) by lia.
      rewrite Z.pow_add_r by lia.
      change (2 ^ 98) with 316912650057057350374175801344.
      set (X := 2 ^ (- 49 - e)) in *. clearbody X. lia.
    + rewrite Z0 in Ex.
      assert (t * 10 = zero)%float as ->
        by (apply Prim2SF_inj; rewrite Ex; reflexivity).
      exists 0. split; [lia | reflexivity].
    + rewrite F in Ex. unfold Math_round. rewrite Ex.
      destruct (Z.leb_spec 0 e') as [K|K]; [lia|]. cbv zeta.
      assert (0 < 2 ^ (- e')) as P by (apply Z.pow_pos_nonneg; lia).
      assert (2 ^ (1 - e') = 2 * 2 ^ (- e')) as S
        by (replace (1 - e') with (Z.succ (- e')) by lia;
            apply Z.pow_succ_r; lia).
      set (z := (2 * Zpos m' + 2 ^ (- e')) / 2 ^ (1 - e')).
      assert (0 <= z < 101) as R.
      { unfold z. rewrite S. set (X := 2 ^ (- e')) in *. clearbody X. split.
        - apply Z.div_pos; lia.
        - apply Z.div_lt_upper_bound; lia. }
      exists z. split; [lia|].
      destruct (Z.eqb_spec z 0) as [->|N]; reflexivity.
Qed.


(** The last line of [calculateBurnoutScore] before the division, on a sum
    that is a number: a whole number between 0 and 100. *)
Lemma rounded_clamp_whole (t : float) :
  is_nan t = false ->
  exists k : Z,
    0 <= k <= 100 /\ Math_round (Math_min 10 (Math_max 0 t) * 10) = of_Z k.
Proof.
  destruct (float_cases t) as [->|[->|[->|[->|[->|(s & m & e & E)]]]]];
    intro N; try discriminate N;
    try (exists 0; split; [lia | reflexivity]);
    try (exists 100; split; [lia | vm_compute; reflexivity]).
  destruct (finite_vs_zero t s m e E) as [L G].
  unfold Math_max. rewrite N, G, L.
  change (is_nan 0) with false. cbn [orb].
  destruct s; cbn [negb].
  - exists 0. split; [lia | reflexivity].
  - unfold Math_min. rewrite N. change (is_nan 10) with false. cbn [orb].
    destruct (10 <? t)%float eqn:A.
    + exists 100. split; [lia | vm_compute; reflexivity].
    + assert ((if (t <? 10)%float then t
               else if get_sign 10 then 10%float else t) = t) as ->
        by (destruct (t <? 10)%float; reflexivity).
      apply (rounded_tenths_of_positive t m e E A).
Qed.

(** The binary64 number nearest to [k/10], for [k] from 0 to 100, lies
    between 0 and 10. *)
Lemma tenth_in_range (k : Z) :
  0 <= k <= 100 ->
  (0 <=? of_Z k / 10)%float = true /\ (of_Z k / 10 <=? 10)%float = true.
Proof.
  intro K. assert (0 <= k < Z.of_nat 101) as K' by lia. clear K.
  revert k K'. refine (Z_range_cases _ 101%nat _).
  intros i I.
  do 101 (destruct i as [|i]; [split; vm_compute; reflexivity|]).
  lia.
Qed.




End Binary64Rounding.

(** * The claims *)

Section Refinement.
Import JSNum Burnout.
Local Open Scope js_scope.

Lemma sleepScore_sleepTerm (h : number) : Spec.sleepTerm h (sleepScore h).
Proof.
  unfold sleepScore.
  destruct (h <? 6) eqn:U.
  - apply Spec.sleep_under. apply ltb_true. exact U.
  - destruct (h >? 9) eqn:O.
    + rewrite Math_min_eq_Qmin. apply Spec.sleep_over.
      apply gtb_true. exact O.
    + apply Spec.sleep_optimal. split.
      * apply ltb_false. exact U.
      * apply gtb_false. exact O.
Qed.

Lemma sleepTerm_unique (h v : number) :
  Spec.sleepTerm h v -> v = sleepScore h.
Proof.
  unfold sleepScore. intros [U|O|[L R]].
  - apply ltb_true in U. rewrite U. reflexivity.
  - assert ((h <? 6) = false) as U by (apply ltb_false; lra).
    apply gtb_true in O. rewrite U, O, Math_min_eq_Qmin. reflexivity.
  - apply ltb_false in L. apply gtb_false in R. rewrite L, R. reflexivity.
Qed.

Lemma timeScore_timeTerm (h : number) : Spec.timeTerm h (timeScore h).
Proof.
  unfold timeScore.
  destruct (h >? 8) eqn:O.
  - rewrite Math_min_eq_Qmin. apply Spec.time_over. apply gtb_true. exact O.
  - apply Spec.time_otherwise. apply gtb_false in O. lra.
Qed.

Lemma timeTerm_unique (h v : number) :
  Spec.timeTerm h v -> v = timeScore h.
Proof.
  unfold timeScore. intros [O|N].
  - apply gtb_true in O. rewrite O, Math_min_eq_Qmin. reflexivity.
  - assert ((h >? 8) = false) as O by (apply gtb_false; lra).
    rewrite O. reflexivity.
Qed.

Lemma rounded_clamp_spec (t : number) :
  Math_round (Math_min 10 (Math_max 0 t) * 10) / 10
  == Spec.round (Spec.clamp t 0 10 * 10) / 10.
Proof.
  unfold Spec.round.
  rewrite (Math_round_comp (Math_min 10 (Math_max 0 t) * 10)
                           (Spec.clamp t 0 10 * 10)).
  - reflexivity.
  - rewrite clamp_eq_spec. reflexivity.
Qed.

(** In exact arithmetic the formula of the source and the six steps of the
    specification are the same function: the value of the formula is a
    value the algorithm prescribes, and the only one. *)
Lemma exact_score_is_computeScore (m : BurnoutMetrics) :
  Spec.computeScore (stress_level m) (sleep_hours m) (mood_level m)
                    (time_spent_hours m) (calculateBurnoutScore m)
  /\ forall v : Q,
       Spec.computeScore (stress_level m) (sleep_hours m) (mood_level m)
                         (time_spent_hours m) v ->
       v == calculateBurnoutScore m.
Proof.
  split.
  - exists (sleepScore (sleep_hours m)), (timeScore (time_spent_hours m)).
    split; [apply sleepScore_sleepTerm|].
    split; [apply timeScore_timeTerm|].
    cbv zeta. unfold calculateBurnoutScore, totalScore.
    unfold Spec.stressTerm, Spec.moodTerm, stressScore, moodScore.
    apply rounded_clamp_spec.
  - intros v (sl & ti & Hs & Ht & Hv). cbv zeta in Hv.
    apply sleepTerm_unique in Hs. apply timeTerm_unique in Ht. subst sl ti.
    unfold calculateBurnoutScore, totalScore.
    unfold Spec.stressTerm, Spec.moodTerm in Hv.
    unfold stressScore, moodScore.
    eapply Qeq_trans; [exact Hv|].
    symmetry. apply rounded_clamp_spec.
Qed.

End Refinement.

(** ** The refinement in binary64 *)

Section RefinementBinary64.
Import JSFloat BurnoutF.
Local Open Scope float_scope.
Local Set Warnings "-inexact-float".

(** C1 as stated fails.  Stress 1, 8 hours of sleep, mood 3 and 12.5 hours
    spent are four numbers that binary64 holds exactly.  On them the six
    steps over the real numbers prescribe 2.9 and nothing else, while
    [calculateBurnoutScore] returns the binary64 number 2.8, which is below
    2.81: its sum of the terms, rounded after each operation, comes out
    just below 2.85.  And where sleepHours is NaN none of the three cases
    of the sleep step applies, so the algorithm prescribes no value, while
    the code returns one. *)
Lemma calculateBurnoutScore_not_real_computeScore :
  let m := {| stress_level := 1; sleep_hours := 8; mood_level := 3;
              time_spent_hours := 12.5 |} in
  (to_Q (stress_level m) == 1 /\ to_Q (sleep_hours m) == 8 /\
   to_Q (mood_level m) == 3 /\ to_Q (time_spent_hours m) == 12.5)%Q /\
  Spec.computeScore 1 8 3 12.5 2.9 /\
  (forall v : Q, Spec.computeScore 1 8 3 12.5 v -> (v == 2.9)%Q) /\
  calculateBurnoutScore m = 2.8 /\
  (to_Q (calculateBurnoutScore m) < 2.81)%Q /\
  (forall v : float, ~ SpecF.computeScore 3 nan 3 8 v) /\
  calculateBurnoutScore
    {| stress_level := 3; sleep_hours := nan; mood_level := 3;
       time_spent_hours := 8 |} = 3.5.
Proof.
  cbv zeta.
  pose (q := {| Burnout.stress_level := 1%Q; Burnout.sleep_hours := 8%Q;
                Burnout.mood_level := 3%Q;
                Burnout.time_spent_hours := 12.5%Q |}).
  destruct (exact_score_is_computeScore q) as [P U].
  assert (Burnout.calculateBurnoutScore q == 2.9)%Q as V
    by (vm_compute; reflexivity).
  split; [repeat split; vm_compute; reflexivity|].
  split.
  { destruct P as (sl & ti & Hs & Ht & Hv).
    exists sl, ti. split; [exact Hs|]. split; [exact Ht|].
    cbv zeta in *.
    apply (Qeq_trans _ (Burnout.calculateBurnoutScore q));
      [symmetry; exact V | exact Hv]. }
  split; [intros v H; rewrite (U v H); exact V|].
  split; [vm_compute; reflexivity|].
  split; [vm_compute; reflexivity|].
  split; [|vm_compute; reflexivity].
  intros v (sl & ti & Hs & _).
  destruct Hs as [H|H|H _]; vm_compute in H; discriminate H.
Qed.

(** C1, amended.  For every metrics record whose sleep hours are a number
    (not NaN), the value [calculateBurnoutScore] returns is a value the
    six-step algorithm of the specification prescribes when each of its
    operations is the binary64 one (stress term, piecewise sleep term, mood
    term, piecewise time term, their sum, clamp to [0,10] and rounding to
    tenths), and it is the only one: every value that algorithm prescribes
    is the same number. *)
Theorem calculateBurnoutScore_is_computeScore_binary64 (m : BurnoutMetrics) :
  is_nan (sleep_hours m) = false ->
  SpecF.computeScore (stress_level m) (sleep_hours m) (mood_level m)
                     (time_spent_hours m) (calculateBurnoutScore m)
  /\ forall v : float,
       SpecF.computeScore (stress_level m) (sleep_hours m) (mood_level m)
                          (time_spent_hours m) v ->
       same_number v (calculateBurnoutScore m).
Proof.
  intro N. split.
  - exists (sleepScore (sleep_hours m)), (timeScore (time_spent_hours m)).
    split; [apply sleepScore_sleepTermF; exact N|].
    split; [apply timeScore_timeTermF|].
    cbv zeta. unfold calculateBurnoutScore, totalScore.
    unfold SpecF.stressTerm, SpecF.moodTerm, stressScore, moodScore.
    apply (rounded_clamp_same _ zero).
  - intros v (sl & ti & Hs & Ht & Hv). cbv zeta in Hv.
    apply (sleepTermF_unique _ _ N) in Hs. apply timeTermF_unique in Ht.
    subst sl ti.
    unfold calculateBurnoutScore, totalScore.
    unfold SpecF.stressTerm, SpecF.moodTerm in Hv.
    unfold stressScore, moodScore.
    apply (rounded_clamp_same _ v). exact Hv.
Qed.

Lemma calculateBurnoutScore_is_computeScore_binary64_witness :
  let m := {| stress_level := 1; sleep_hours := 8; mood_level := 3;
              time_spent_hours := 12.5 |} in
  is_nan (sleep_hours m) = false /\
  SpecF.computeScore (stress_level m) (sleep_hours m) (mood_level m)
                     (time_spent_hours m) (calculateBurnoutScore m).
Proof.
  cbv zeta. split; [reflexivity|].
  apply (calculateBurnoutScore_is_computeScore_binary64
           {| stress_level := 1; sleep_hours := 8; mood_level := 3;
              time_spent_hours := 12.5 |}).
  reflexivity.
Defined.

End RefinementBinary64.

Section Range.
Import JSNum Burnout.
Local Open Scope js_scope.




End Range.

(** ** The range in binary64 *)

Section RangeBinary64.
Import JSFloat BurnoutF.
Local Open Scope float_scope.

(** C8 as stated fails.  A NaN stress level, or an infinite stress level
    together with an infinite mood level, makes the sum of the terms NaN;
    the clamp and the rounding leave NaN as it is, and the result is NaN,
    which is neither at least 0 nor at most 10. *)
Lemma calculateBurnoutScore_nan_out_of_range :
  let a := {| stress_level := nan; sleep_hours := 8; mood_level := 3;
              time_spent_hours := 8 |} in
  let b := {| stress_level := infinity; sleep_hours := 8;
              mood_level := infinity; time_spent_hours := 8 |} in
  (is_nan (totalScore a) = true /\ calculateBurnoutScore a = nan /\
   (0 <=? calculateBurnoutScore a) = false /\
   (calculateBurnoutScore a <=? 10) = false) /\
  (is_nan (totalScore b) = true /\ calculateBurnoutScore b = nan /\
   (0 <=? calculateBurnoutScore b) = false /\
   (calculateBurnoutScore b <=? 10) = false).
Proof. cbv zeta. repeat split; vm_compute; reflexivity. Qed.

(** C8, amended.  The range guarantee needs no precondition on the domain:
    for every record of four binary64 numbers whose sum of the terms is not
    NaN, in the declared domain or not, the score is the binary64 number
    nearest to [k/10] for a whole [k] between 0 and 100, and lies in
    [0, 10], because the clamp and the rounding are applied to the sum
    unconditionally.  It holds in particular for negative hours, a stress
    level above 5, more than 24 hours of sleep, an infinite stress level
    and a sum that overflows. *)
Theorem calculateBurnoutScore_total_range :
  (forall m : BurnoutMetrics,
     is_nan (totalScore m) = false ->
     exists k : Z,
       (0 <= k <= 100)%Z /\
       calculateBurnoutScore m = of_Z k / 10 /\
       (0 <=? calculateBurnoutScore m) = true /\
       (calculateBurnoutScore m <=? 10) = true) /\
  calculateBurnoutScore
    {| stress_level := 3; sleep_hours := -2; mood_level := 3;
       time_spent_hours := -5 |} = 7.5 /\
  calculateBurnoutScore
    {| stress_level := 9; sleep_hours := 30; mood_level := 1;
       time_spent_hours := 40 |} = 10 /\
  calculateBurnoutScore
    {| stress_level := -7; sleep_hours := 8; mood_level := 12;
       time_spent_hours := 0 |} = 0 /\
  calculateBurnoutScore
    {| stress_level := infinity; sleep_hours := 8; mood_level := 3;
       time_spent_hours := 8 |} = 10 /\
  (let m := {| stress_level := 0x1.fffffffffffffp+1023;
               sleep_hours := -0x1.fffffffffffffp+1023; mood_level := 3;
               time_spent_hours := 8 |} in
   totalScore m = infinity /\ calculateBurnoutScore m = 10).
Proof.
  split; [|cbv zeta; repeat split; vm_compute; reflexivity].
  intros m N. unfold calculateBurnoutScore.
  destruct (rounded_clamp_whole (totalScore m) N) as (k & K & E).
  rewrite E. exists k. split; [exact K|]. split; [reflexivity|].
  apply tenth_in_range. exact K.
Qed.

Lemma calculateBurnoutScore_total_range_witness :
  let m := {| stress_level := 3; sleep_hours := -2; mood_level := 3;
              time_spent_hours := -5 |} in
  is_nan (totalScore m) = false /\
  exists k : Z,
    (0 <= k <= 100)%Z /\
    calculateBurnoutScore m = of_Z k / 10 /\
    (0 <=? calculateBurnoutScore m) = true /\
    (calculateBurnoutScore m <=? 10) = true.
Proof.
  cbv zeta. split; [reflexivity|].
  apply (proj1 calculateBurnoutScore_total_range
           {| stress_level := 3; sleep_hours := -2; mood_level := 3;
              time_spent_hours := -5 |}).
  reflexivity.
Defined.

End RangeBinary64.

Section Rounding.
Import JSFloat BurnoutF.
Local Open Scope float_scope.
Local Set Warnings "-inexact-float".



End Rounding.

Section Example.
Import JSNum Burnout.
Local Open Scope js_scope.
Local Open Scope string_scope.

(** C7.  On stress 5, sleep 4, mood 1, time spent 16 the terms are 4, 1, 3
    and 2.4, their sum is 10.4, the clamp brings it to 10 and the score is
    10.0; that score is classified [high] and its suggestion is the
    reduce-goals message. *)
Theorem worked_example_high :
  let m := {| stress_level := 5; sleep_hours := 4; mood_level := 1;
              time_spent_hours := 16 |} in
  stressScore (stress_level m) == 4 /\
  sleepScore (sleep_hours m) == 1 /\
  moodScore (mood_level m) == 3 /\
  timeScore (time_spent_hours m) == 2.4 /\
  totalScore m == 10.4 /\
  Math_min 10 (Math_max 0 (totalScore m)) == 10 /\
  calculateBurnoutScore m == 10.0 /\
  level (getBurnoutLevel (calculateBurnoutScore m)) = high /\
  getAdaptiveGoalSuggestion (calculateBurnoutScore m)
  = "Consider reducing your weekly goals by 30-50% to focus on recovery.".
Proof. cbv zeta. repeat split; vm_compute; reflexivity. Qed.

End Example.

Section Classification.
Import JSNum Burnout.
Local Open Scope js_scope.
Local Open Scope string_scope.

(** The three branches of [getBurnoutLevel], each with its guard. *)
Lemma getBurnoutLevel_cases (v : number) :
  (v <= 3 /\
   getBurnoutLevel v =
     {| level := low; color := "text-green-700"; bgColor := "bg-green-100";
        message := "You're doing great! Keep up the healthy habits." |})
  \/
  (3 < v <= 6 /\
   getBurnoutLevel v =
     {| level := moderate; color := "text-yellow-700";
        bgColor := "bg-yellow-100";
        message := "Consider taking some time to recharge and relax." |})
  \/
  (6 < v /\
   getBurnoutLevel v =
     {| level := high; color := "text-red-700"; bgColor := "bg-red-100";
        message :=
          "High burnout detected. Please prioritize rest and self-care." |}).
Proof.
  unfold getBurnoutLevel.
  destruct (leb_cases v 3) as [[L3 E3]|[L3 E3]]; rewrite E3.
  - left. split; [exact L3 | reflexivity].
  - destruct (leb_cases v 6) as [[L6 E6]|[L6 E6]]; rewrite E6.
    + right; left. split; [split; assumption | reflexivity].
    + right; right. split; [exact L6 | reflexivity].
Qed.

Lemma level_low_iff (v : number) :
  level (getBurnoutLevel v) = low <-> v <= 3.
Proof.
  destruct (getBurnoutLevel_cases v) as [[G E]|[[G E]|[G E]]]; rewrite E;
    simpl; split; intro H; try discriminate; try reflexivity; lra.
Qed.

Lemma level_moderate_iff (v : number) :
  level (getBurnoutLevel v) = moderate <-> 3 < v <= 6.
Proof.
  destruct (getBurnoutLevel_cases v) as [[G E]|[[G E]|[G E]]]; rewrite E;
    simpl; split; intro H; try discriminate; try reflexivity; lra.
Qed.

Lemma level_high_iff (v : number) :
  level (getBurnoutLevel v) = high <-> 6 < v.
Proof.
  destruct (getBurnoutLevel_cases v) as [[G E]|[[G E]|[G E]]]; rewrite E;
    simpl; split; intro H; try discriminate; try reflexivity; lra.
Qed.

(** The fixed message of each level. *)
Lemma message_of_level (v : number) :
  message (getBurnoutLevel v) =
  match level (getBurnoutLevel v) with
  | low => "You're doing great! Keep up the healthy habits."
  | moderate => "Consider taking some time to recharge and relax."
  | high => "High burnout detected. Please prioritize rest and self-care."
  end.
Proof.
  destruct (getBurnoutLevel_cases v) as [[G E]|[[G E]|[G E]]]; rewrite E;
    reflexivity.
Qed.

(** C2.  For every score [v], [getBurnoutLevel] returns level [low] with
    the "doing great" message exactly when [v <= 3], level [moderate] with
    the "recharge" message exactly when [3 < v <= 6], and level [high] with
    the "high burnout" message exactly when [v > 6]; 3 is low, 3.1 is
    moderate, 6 is moderate and 6.1 is high. *)
Theorem getBurnoutLevel_thresholds :
  (forall v : number,
     (level (getBurnoutLevel v) = low /\
      message (getBurnoutLevel v)
      = "You're doing great! Keep up the healthy habits."
      <-> v <= 3) /\
     (level (getBurnoutLevel v) = moderate /\
      message (getBurnoutLevel v)
      = "Consider taking some time to recharge and relax."
      <-> 3 < v <= 6) /\
     (level (getBurnoutLevel v) = high /\
      message (getBurnoutLevel v)
      = "High burnout detected. Please prioritize rest and self-care."
      <-> v > 6)) /\
  level (getBurnoutLevel 3) = low /\
  level (getBurnoutLevel 3.1) = moderate /\
  level (getBurnoutLevel 6) = moderate /\
  level (getBurnoutLevel 6.1) = high.
Proof.
  split; [|repeat split; vm_compute; reflexivity].
  intro v. repeat split.
  - intros [H _]. apply level_low_iff, H.
  - apply level_low_iff, H.
  - rewrite message_of_level.
    apply level_low_iff in H. rewrite H. reflexivity.
  - destruct H as [H _]. apply level_moderate_iff in H. apply H.
  - destruct H as [H _]. apply level_moderate_iff in H. apply H.
  - apply level_moderate_iff, H.
  - rewrite message_of_level.
    apply level_moderate_iff in H. rewrite H. reflexivity.
  - intros [H _]. apply level_high_iff, H.
  - apply level_high_iff, H.
  - rewrite message_of_level.
    apply level_high_iff in H. rewrite H. reflexivity.
Qed.

(** C6, as the specification words it: the lower boundary of a band
    belongs to the band, so 3 would be moderate and 6 would be high.  The
    code puts 3 in the low band and 6 in the moderate band. *)
Lemma boundary_lower_inclusive_fails :
  ~ (level (getBurnoutLevel 3) = moderate /\
     level (getBurnoutLevel 6) = high) /\
  level (getBurnoutLevel 3) = low /\
  level (getBurnoutLevel 6) = moderate.
Proof.
  split; [|split; vm_compute; reflexivity].
  intros [H _]. vm_compute in H. discriminate H.
Qed.

(** C6, amended.  The bands of [getBurnoutLevel] are inclusive on their
    upper bound: low is [v <= 3], moderate is [3 < v <= 6], high is
    [v > 6]; the boundary 3 belongs to the low band and the boundary 6 to
    the moderate band. *)
Theorem boundary_upper_inclusive :
  (forall v : number, level (getBurnoutLevel v) = low <-> v <= 3) /\
  (forall v : number, level (getBurnoutLevel v) = moderate <-> 3 < v <= 6) /\
  (forall v : number, level (getBurnoutLevel v) = high <-> 6 < v) /\
  level (getBurnoutLevel 3) = low /\
  level (getBurnoutLevel 6) = moderate.
Proof.
  split; [exact level_low_iff|].
  split; [exact level_moderate_iff|].
  split; [exact level_high_iff|].
  split; vm_compute; reflexivity.
Qed.

(** C9.  [getBurnoutLevel] is total over all scores, inside [0, 10] or
    not: every score at most 3, negative ones included, is [low]; every
    score above 6, those above 10 included, is [high]; and for every score
    the result is one of exactly three records, each level with its own
    message, colour and background colour. *)
Theorem getBurnoutLevel_total :
  forall v : number,
    (v <= 3 -> level (getBurnoutLevel v) = low) /\
    (v < 0 -> level (getBurnoutLevel v) = low) /\
    (v > 6 -> level (getBurnoutLevel v) = high) /\
    (v > 10 -> level (getBurnoutLevel v) = high) /\
    (getBurnoutLevel v =
       {| level := low; color := "text-green-700";
          bgColor := "bg-green-100";
          message := "You're doing great! Keep up the healthy habits." |}
     \/
     getBurnoutLevel v =
       {| level := moderate; color := "text-yellow-700";
          bgColor := "bg-yellow-100";
          message := "Consider taking some time to recharge and relax." |}
     \/
     getBurnoutLevel v =
       {| level := high; color := "text-red-700"; bgColor := "bg-red-100";
          message :=
            "High burnout detected. Please prioritize rest and self-care."
       |}).
Proof.
  intro v.
  split; [intro H; apply level_low_iff; exact H|].
  split; [intro H; apply level_low_iff; lra|].
  split; [intro H; apply level_high_iff; exact H|].
  split; [intro H; apply level_high_iff; lra|].
  destruct (getBurnoutLevel_cases v) as [[_ E]|[[_ E]|[_ E]]]; auto.
Qed.

Lemma getBurnoutLevel_total_witness :
  level (getBurnoutLevel (-4)) = low /\
  level (getBurnoutLevel 12.5) = high.
Proof.
  split.
  - apply (getBurnoutLevel_total (-4)). vm_compute. reflexivity.
  - apply (getBurnoutLevel_total 12.5). vm_compute. reflexivity.
Defined.

(** The three branches of [getAdaptiveGoalSuggestion], each with its
    guard. *)
Lemma getAdaptiveGoalSuggestion_cases (v : number) :
  (7 <= v /\
   getAdaptiveGoalSuggestion v =
   "Consider reducing your weekly goals by 30-50% to focus on recovery.")
  \/
  (4 <= v < 7 /\
   getAdaptiveGoalSuggestion v =
   "You might want to maintain current goals but add more rest periods.")
  \/
  (v < 4 /\
   getAdaptiveGoalSuggestion v =
   "Your burnout levels look healthy - you can maintain or slightly increase your goals.").
Proof.
  unfold getAdaptiveGoalSuggestion, geb.
  destruct (leb_cases 7 v) as [[L7 E7]|[L7 E7]]; rewrite E7.
  - left. split; [exact L7 | reflexivity].
  - destruct (leb_cases 4 v) as [[L4 E4]|[L4 E4]]; rewrite E4.
    + right; left. split; [split; assumption | reflexivity].
    + right; right. split; [exact L4 | reflexivity].
Qed.

(** C3.  For every score [v], [getAdaptiveGoalSuggestion] returns the
    reduce-goals message exactly when [v >= 7], the add-rest message
    exactly when [4 <= v < 7] and the healthy message exactly when
    [v < 4].  So the suggestion at 6.9 differs from the one at 7 and the
    one at 3.9 from the one at 4; and the thresholds 4 and 7 are not the
    thresholds 3 and 6 of [getBurnoutLevel]: across 3.9/4 and 6.9/7 the
    suggestion changes and the level does not, across 3/3.1 and 6/6.1 the
    level changes and the suggestion does not. *)
Theorem getAdaptiveGoalSuggestion_thresholds :
  (forall v : number,
     (getAdaptiveGoalSuggestion v
      = "Consider reducing your weekly goals by 30-50% to focus on recovery."
      <-> v >= 7) /\
     (getAdaptiveGoalSuggestion v
      = "You might want to maintain current goals but add more rest periods."
      <-> 4 <= v < 7) /\
     (getAdaptiveGoalSuggestion v
      = "Your burnout levels look healthy - you can maintain or slightly increase your goals."
      <-> v < 4)) /\
  getAdaptiveGoalSuggestion 6.9 <> getAdaptiveGoalSuggestion 7 /\
  getAdaptiveGoalSuggestion 3.9 <> getAdaptiveGoalSuggestion 4 /\
  (level (getBurnoutLevel 3.9) = level (getBurnoutLevel 4) /\
   level (getBurnoutLevel 6.9) = level (getBurnoutLevel 7)) /\
  (level (getBurnoutLevel 3) <> level (getBurnoutLevel 3.1) /\
   getAdaptiveGoalSuggestion 3 = getAdaptiveGoalSuggestion 3.1) /\
  (level (getBurnoutLevel 6) <> level (getBurnoutLevel 6.1) /\
   getAdaptiveGoalSuggestion 6 = getAdaptiveGoalSuggestion 6.1).
Proof.
  split.
  - intro v.
    destruct (getAdaptiveGoalSuggestion_cases v) as [[G E]|[[G E]|[G E]]];
      rewrite E; repeat split; intros;
      try discriminate; try reflexivity; lra.
  - repeat split; try (vm_compute; reflexivity);
      intro H; vm_compute in H; discriminate H.
Qed.

End Classification.

Section Monotonicity.
Import JSNum Burnout.
Local Open Scope js_scope.











End Monotonicity.

(** * Further properties of the scorer *)

Section Thresholds.
Import JSNum Burnout.
Local Open Scope js_scope.

(** X4.  How the two scales combine on one score: the reduce-goals
    suggestion only comes with level high, level low only with the healthy
    suggestion, and the scales disagree on two intervals: a score in (3, 4)
    is moderate with the healthy suggestion and a score in (6, 7) is high
    with the add-rest suggestion. *)
Theorem level_suggestion_pairs (v : number) :
  (getAdaptiveGoalSuggestion v
   = "Consider reducing your weekly goals by 30-50% to focus on recovery."%string
   -> level (getBurnoutLevel v) = high) /\
  (level (getBurnoutLevel v) = low ->
   getAdaptiveGoalSuggestion v
   = "Your burnout levels look healthy - you can maintain or slightly increase your goals."%string) /\
  (level (getBurnoutLevel v) = moderate /\
   getAdaptiveGoalSuggestion v
   = "Your burnout levels look healthy - you can maintain or slightly increase your goals."%string
   <-> 3 < v < 4) /\
  (level (getBurnoutLevel v) = high /\
   getAdaptiveGoalSuggestion v
   = "You might want to maintain current goals but add more rest periods."%string
   <-> 6 < v < 7).
Proof.
  rewrite level_low_iff, level_moderate_iff, level_high_iff.
  destruct (getAdaptiveGoalSuggestion_cases v) as [[G E]|[[[Ga Gb] E]|[G E]]];
    rewrite E; repeat split; intros;
    repeat match goal with H : _ /\ _ |- _ => destruct H end;
    try discriminate; try reflexivity; lra.
Qed.







End Thresholds.

(** * The check-in form *)

Section CheckinForm.
Import JSNum JSVal.
Local Open Scope js_scope.

Lemma truthy_true (x : number) : truthy x = true <-> ~ x == 0.
Proof.
  unfold truthy. rewrite negb_true_iff.
  split; intro H.
  - intro E. apply Qeq_bool_iff in E. congruence.
  - destruct (Qeq_bool x 0) eqn:B; [|reflexivity].
    apply Qeq_bool_iff in B. contradiction.
Qed.

Lemma or_else_some (v d : number) : ~ v == 0 -> or_else (Some v) d = v.
Proof. intro H. apply truthy_true in H. simpl. rewrite H. reflexivity. Qed.

Lemma or_else_zero (v d : number) : v == 0 -> or_else (Some v) d = d.
Proof.
  intro H. simpl. unfold truthy.
  apply Qeq_bool_iff in H. rewrite H. reflexivity.
Qed.

(** X9.  What the form starts from.  Without an existing check-in the
    sliders start at stress 3, sleep 8, mood 3, time 8.  With one whose
    stress and mood are in [1, 5], stress and mood are restored, and each of
    the two hour fields is restored when it is not 0; a stored 0 hours of
    sleep, or of time spent, comes back as 8. *)
Theorem initialState_restores :
  BurnoutCheckin.initialState None
  = {| BurnoutCheckin.stressLevel := 3; BurnoutCheckin.sleepHours := 8;
       BurnoutCheckin.moodLevel := 3; BurnoutCheckin.timeSpentHours := 8 |}
  /\
  forall c : Dashboard.TodayCheckin,
    1 <= Dashboard.stress_level c <= 5 ->
    1 <= Dashboard.mood_level c <= 5 ->
    let s := BurnoutCheckin.initialState (Some c) in
    BurnoutCheckin.stressLevel s = Dashboard.stress_level c /\
    BurnoutCheckin.moodLevel s = Dashboard.mood_level c /\
    (~ Dashboard.sleep_hours c == 0 ->
     BurnoutCheckin.sleepHours s = Dashboard.sleep_hours c) /\
    (Dashboard.sleep_hours c == 0 -> BurnoutCheckin.sleepHours s = 8) /\
    (~ Dashboard.time_spent_hours c == 0 ->
     BurnoutCheckin.timeSpentHours s = Dashboard.time_spent_hours c) /\
    (Dashboard.time_spent_hours c == 0 ->
     BurnoutCheckin.timeSpentHours s = 8).
Proof.
  split; [reflexivity|].
  intros c S M. cbv zeta. unfold BurnoutCheckin.initialState. simpl option_map.
  cbn [BurnoutCheckin.stressLevel BurnoutCheckin.sleepHours
       BurnoutCheckin.moodLevel BurnoutCheckin.timeSpentHours].
  repeat split; intros.
  - apply or_else_some. lra.
  - apply or_else_some. lra.
  - apply or_else_some. assumption.
  - apply or_else_zero. assumption.
  - apply or_else_some. assumption.
  - apply or_else_zero. assumption.
Qed.

Lemma initialState_restores_witness :
  let c := {| Dashboard.checkin_id := "c1"; Dashboard.stress_level := 4;
              Dashboard.sleep_hours := 0; Dashboard.mood_level := 2;
              Dashboard.time_spent_hours := 9.5;
              Dashboard.burnout_score := 8.7 |} in
  BurnoutCheckin.sleepHours (BurnoutCheckin.initialState (Some c)) = 8 /\
  BurnoutCheckin.timeSpentHours (BurnoutCheckin.initialState (Some c)) = 9.5.
Proof.
  cbv zeta.
  set (c := {| Dashboard.checkin_id := "c1"; Dashboard.stress_level := 4;
               Dashboard.sleep_hours := 0; Dashboard.mood_level := 2;
               Dashboard.time_spent_hours := 9.5;
               Dashboard.burnout_score := 8.7 |}).
  assert (1 <= Dashboard.stress_level c <= 5) as S by (simpl; lra).
  assert (1 <= Dashboard.mood_level c <= 5) as M by (simpl; lra).
  destruct (proj2 initialState_restores c S M) as (_ & _ & _ & Z & T & _).
  split.
  - apply Z. reflexivity.
  - apply T. simpl. intro E. discriminate E.
Defined.

(** X10.  Submit, then reopen.  When the sliders are within their bounds
    and neither hour slider is at 0, the form reopened on the row just
    written starts from the same four values and so previews the score that
    was stored.  With the sleep slider at 0 it does not: written with
    stress 3, sleep 0, mood 3, time 8 the stored score is 6.5, level high,
    and the reopened form previews 3.5, level moderate. *)
Theorem submit_then_reopen :
  (forall (user date row_id : string) (s : BurnoutCheckin.State),
     BurnoutCheckin.within_sliders s ->
     ~ BurnoutCheckin.sleepHours s == 0 ->
     ~ BurnoutCheckin.timeSpentHours s == 0 ->
     let row := BurnoutCheckin.returnedRow row_id
                  (BurnoutCheckin.checkinData user date s) in
     BurnoutCheckin.initialState (Some row) = s /\
     BurnoutCheckin.burnoutScore (BurnoutCheckin.initialState (Some row))
     = Dashboard.burnout_score row) /\
  (let s := {| BurnoutCheckin.stressLevel := 3; BurnoutCheckin.sleepHours := 0;
               BurnoutCheckin.moodLevel := 3;
               BurnoutCheckin.timeSpentHours := 8 |} in
   let row := BurnoutCheckin.returnedRow "r"
                (BurnoutCheckin.checkinData "u" "2025-01-06" s) in
   Dashboard.burnout_score row == 6.5 /\
   Burnout.level (Burnout.getBurnoutLevel (Dashboard.burnout_score row))
   = Burnout.high /\
   BurnoutCheckin.burnoutScore (BurnoutCheckin.initialState (Some row)) == 3.5 /\
   Burnout.level
     (BurnoutCheckin.burnoutInfo (BurnoutCheckin.initialState (Some row)))
   = Burnout.moderate).
Proof.
  split; [|cbv zeta; repeat split; vm_compute; reflexivity].
  intros user date row_id s (S & H & M & T) HZ TZ. cbv zeta.
  assert (BurnoutCheckin.initialState
            (Some (BurnoutCheckin.returnedRow row_id
                     (BurnoutCheckin.checkinData user date s))) = s) as E.
  { destruct s as [st sl mo ti]. simpl in *.
    unfold BurnoutCheckin.initialState. simpl option_map.
    cbn [Dashboard.stress_level Dashboard.sleep_hours Dashboard.mood_level
         Dashboard.time_spent_hours BurnoutCheckin.returnedRow
         BurnoutCheckin.checkinData BurnoutCheckin.stress_level
         BurnoutCheckin.sleep_hours BurnoutCheckin.mood_level
         BurnoutCheckin.time_spent_hours BurnoutCheckin.stressLevel
         BurnoutCheckin.sleepHours BurnoutCheckin.moodLevel
         BurnoutCheckin.timeSpentHours].
    rewrite !or_else_some; [reflexivity| | | |]; try assumption; lra. }
  split; [exact E|]. rewrite E. reflexivity.
Qed.

Lemma submit_then_reopen_witness :
  let s := {| BurnoutCheckin.stressLevel := 4; BurnoutCheckin.sleepHours := 5.5;
              BurnoutCheckin.moodLevel := 2;
              BurnoutCheckin.timeSpentHours := 10 |} in
  BurnoutCheckin.initialState
    (Some (BurnoutCheckin.returnedRow "r"
             (BurnoutCheckin.checkinData "u" "2025-01-06" s))) = s.
Proof.
  cbv zeta.
  apply (proj1 submit_then_reopen "u" "2025-01-06" "r")%string.
  - unfold BurnoutCheckin.within_sliders. simpl. lra.
  - simpl. intro E. discriminate E.
  - simpl. intro E. discriminate E.
Defined.



End CheckinForm.

(** * Goals: the list of goals and its day marks *)

Section GoalsState.
Import JSNum JSVal.
Local Open Scope js_scope.

(** The number of [true] values among the pairs of an object. *)
Lemma count_true_perm (l k : list (string * bool)) :
  l ≡ₚ k ->
  length (List.filter (fun b : bool => b) (map snd l))
  = length (List.filter (fun b : bool => b) (map snd k)).
Proof.
  induction 1 as [|[d b] l k _ IH|[d b] [d' b'] l|l k j _ IH1 _ IH2]; simpl.
  - reflexivity.
  - destruct b; simpl; congruence.
  - destruct b, b'; reflexivity.
  - congruence.
Qed.

Lemma count_true_insert (m : gmap string bool) (d : string) (v : bool) :
  length (List.filter (fun b : bool => b) (map snd (map_to_list (<[d:=v]> m))))
  = ((if v then 1 else 0)
     + length (List.filter (fun b : bool => b)
                           (map snd (map_to_list (delete d m)))))%nat.
Proof.
  rewrite <- (insert_delete_eq m d v).
  rewrite (count_true_perm _ _
             (map_to_list_insert (delete d m) d v (lookup_delete_eq m d))).
  simpl. destruct v; reflexivity.
Qed.

Lemma count_true_lookup (m : gmap string bool) (d : string) :
  length (List.filter (fun b : bool => b) (map snd (map_to_list m)))
  = ((if match m !! d with Some b => b || false | None => false end
      then 1 else 0)
     + length (List.filter (fun b : bool => b)
                           (map snd (map_to_list (delete d m)))))%nat.
Proof.
  destruct (m !! d) as [b|] eqn:E.
  - rewrite <- (count_true_perm _ _ (map_to_list_delete m d b E)).
    simpl. destruct b; reflexivity.
  - rewrite (delete_id m d E). reflexivity.
Qed.

Lemma lookup_map {A B : Type} (f : A -> B) (l : list A) (i : nat) :
  map f l !! i = option_map f (l !! i).
Proof.
  revert i. induction l as [|a l IH]; intros [|i]; simpl; auto.
Qed.

Lemma isCompleted_insert (g g' : GoalsManager.Goal) (d d' : string) (v : bool) :
  GoalsManager.completions g' = <[d:=v]> (GoalsManager.completions g) ->
  GoalsManager.isCompleted g' d'
  = if String.eqb d d' then v else GoalsManager.isCompleted g d'.
Proof.
  intro E. unfold GoalsManager.isCompleted. rewrite E.
  destruct (String.eqb_spec d d') as [->|N].
  - rewrite lookup_insert_eq. destruct v; reflexivity.
  - rewrite lookup_insert_ne by exact N. reflexivity.
Qed.


Lemma length_number_nonneg {A : Type} (l : list A) : 0 <= length_number l.
Proof.
  unfold length_number. change 0 with (inject_Z 0).
  rewrite <- Zle_Qle. lia.
Qed.




(** One goal of the list after a successful toggle. *)
Lemma toggle_lookup (u : string) (goals : list GoalsManager.Goal)
    (goalId date : string) (cur : bool) (i : nat) (g : GoalsManager.Goal) :
  goals !! i = Some g ->
  exists g' : GoalsManager.Goal,
    GoalsManager.handleToggleCompletion (Some u) None goals goalId date cur !! i
    = Some g' /\
    GoalsManager.id g' = GoalsManager.id g /\
    GoalsManager.target_days g' = GoalsManager.target_days g /\
    (GoalsManager.id g = goalId ->
     GoalsManager.completions g'
     = <[date := negb cur]> (GoalsManager.completions g)) /\
    (GoalsManager.id g <> goalId -> g' = g).
Proof.
  intro L. unfold GoalsManager.handleToggleCompletion.
  rewrite lookup_map, L. simpl.
  destruct (String.eqb_spec (GoalsManager.id g) goalId) as [E|N];
    eexists; split; try reflexivity; simpl; repeat split; intros;
    try reflexivity; contradiction.
Qed.

(** X13.  A successful toggle changes one day mark of one goal: the list
    keeps its length, every goal keeps its id and its target, the goal
    toggled shows the day as the opposite of the status passed and every
    other day as before, and the other goals are untouched.  Without a
    signed-in user, or when the update fails, the list is left as it
    was. *)
Theorem toggle_changes_one_mark (u : string)
    (goals : list GoalsManager.Goal) (goalId date : string) (cur : bool) :
  let after :=
    GoalsManager.handleToggleCompletion (Some u) None goals goalId date cur in
  length after = length goals /\
  (forall (i : nat) (g : GoalsManager.Goal),
     goals !! i = Some g ->
     exists g' : GoalsManager.Goal,
       after !! i = Some g' /\
       GoalsManager.id g' = GoalsManager.id g /\
       GoalsManager.target_days g' = GoalsManager.target_days g /\
       (GoalsManager.id g = goalId ->
        GoalsManager.isCompleted g' date = negb cur /\
        forall d : string,
          d <> date ->
          GoalsManager.isCompleted g' d = GoalsManager.isCompleted g d) /\
       (GoalsManager.id g <> goalId -> g' = g)) /\
  (forall e : option string,
     GoalsManager.handleToggleCompletion None e goals goalId date cur = goals) /\
  (forall err : string,
     GoalsManager.handleToggleCompletion (Some u) (Some err) goals goalId date
       cur = goals).
Proof.
  cbv zeta. split; [|split; [|split; reflexivity]].
  - unfold GoalsManager.handleToggleCompletion. apply length_map.
  - intros i g L.
    destruct (toggle_lookup u goals goalId date cur i g L)
      as (g' & L' & I & T & C & O).
    exists g'. repeat split; try assumption.
    + rewrite (isCompleted_insert g g' date date (negb cur)) by auto.
      rewrite String.eqb_refl. reflexivity.
    + intros d N.
      rewrite (isCompleted_insert g g' date d (negb cur)) by auto.
      destruct (String.eqb_spec date d) as [->|_]; [contradiction|reflexivity].
Qed.

Lemma toggle_changes_one_mark_witness :
  let g := {| GoalsManager.id := "g1"; GoalsManager.title := "Read";
              GoalsManager.description := None;
              GoalsManager.target_days := 3;
              GoalsManager.completions := {[ "2025-01-06"%string := true ]} |} in
  exists g' : GoalsManager.Goal,
    GoalsManager.handleToggleCompletion (Some "u"%string) None [g]
      "g1" "2025-01-07" false !! 0%nat = Some g' /\
    GoalsManager.isCompleted g' "2025-01-07" = true /\
    GoalsManager.isCompleted g' "2025-01-06" = true.
Proof.
  cbv zeta.
  set (g := {| GoalsManager.id := "g1"; GoalsManager.title := "Read";
               GoalsManager.description := None;
               GoalsManager.target_days := 3;
               GoalsManager.completions := {[ "2025-01-06"%string := true ]} |}).
  destruct (proj1 (proj2 (toggle_changes_one_mark "u" [g] "g1" "2025-01-07"
                            false)) 0%nat g eq_refl)
    as (g' & L & _ & _ & C & _).
  exists g'. split; [exact L|].
  destruct (C eq_refl) as [C1 C2]. split; [exact C1|].
  rewrite C2; [reflexivity | discriminate].
Defined.

(** X14.  Marking a day changes the count of completed days by exactly
    one: for the goal clicked, with the status passed being the one
    displayed, the count goes up by one when the day was not completed and
    down by one when it was. *)
Theorem toggle_moves_count_by_one (u : string)
    (goals : list GoalsManager.Goal) (date : string) (i : nat)
    (g : GoalsManager.Goal) :
  goals !! i = Some g ->
  exists g' : GoalsManager.Goal,
    GoalsManager.handleToggleCompletion (Some u) None goals
      (GoalsManager.id g) date (GoalsManager.isCompleted g date) !! i
    = Some g' /\
    GoalsManager.completedDays g'
    == GoalsManager.completedDays g
       + (if GoalsManager.isCompleted g date then -1 else 1).
Proof.
  intro L.
  destruct (toggle_lookup u goals (GoalsManager.id g) date
              (GoalsManager.isCompleted g date) i g L)
    as (g' & L' & _ & _ & C & _).
  exists g'. split; [exact L'|].
  unfold GoalsManager.completedDays, length_number.
  rewrite (C eq_refl), count_true_insert.
  rewrite (count_true_lookup (GoalsManager.completions g) date).
  fold (GoalsManager.isCompleted g date).
  set (base := length (List.filter (fun b : bool => b)
                 (map snd (map_to_list
                    (delete date (GoalsManager.completions g)))))).
  destruct (GoalsManager.isCompleted g date); simpl negb;
    rewrite !Nat2Z.inj_add, !inject_Z_plus; simpl; ring.
Qed.

Lemma toggle_moves_count_by_one_witness :
  let g := {| GoalsManager.id := "g1"; GoalsManager.title := "Read";
              GoalsManager.description := None;
              GoalsManager.target_days := 3;
              GoalsManager.completions := {[ "2025-01-06"%string := true ]} |} in
  exists g' : GoalsManager.Goal,
    GoalsManager.handleToggleCompletion (Some "u"%string) None [g]
      (GoalsManager.id g) "2025-01-07"
      (GoalsManager.isCompleted g "2025-01-07") !! 0%nat = Some g' /\
    GoalsManager.completedDays g'
    == GoalsManager.completedDays g
       + (if GoalsManager.isCompleted g "2025-01-07" then -1 else 1).
Proof.
  cbv zeta.
  apply (toggle_moves_count_by_one "u" _ "2025-01-07" 0%nat). reflexivity.
Defined.

(** X15.  Clicking the same day twice, each click passing the status
    then displayed, brings the goal back to what it displayed: every day
    shows as before and the count of completed days is as before, and the
    goals with another id are untouched.  The object itself need not be the
    same: a day that had no entry now has the entry [false]. *)
Theorem toggle_twice (u : string) (goals : list GoalsManager.Goal)
    (date : string) (i : nat) (g : GoalsManager.Goal) :
  goals !! i = Some g ->
  let cur := GoalsManager.isCompleted g date in
  let after1 :=
    GoalsManager.handleToggleCompletion (Some u) None goals
      (GoalsManager.id g) date cur in
  let after2 :=
    GoalsManager.handleToggleCompletion (Some u) None after1
      (GoalsManager.id g) date (negb cur) in
  exists g2 : GoalsManager.Goal,
    after2 !! i = Some g2 /\
    (forall d : string,
       GoalsManager.isCompleted g2 d = GoalsManager.isCompleted g d) /\
    GoalsManager.completedDays g2 = GoalsManager.completedDays g /\
    (GoalsManager.completions g !! date = None ->
     GoalsManager.completions g2 <> GoalsManager.completions g) /\
    (forall (j : nat) (h : GoalsManager.Goal),
       goals !! j = Some h ->
       GoalsManager.id h <> GoalsManager.id g ->
       after2 !! j = Some h).
Proof.
  intro L. cbv zeta.
  set (cur := GoalsManager.isCompleted g date).
  destruct (toggle_lookup u goals (GoalsManager.id g) date cur i g L)
    as (g1 & L1 & I1 & _ & C1 & _).
  destruct (toggle_lookup u _ (GoalsManager.id g) date (negb cur) i g1 L1)
    as (g2 & L2 & _ & _ & C2 & _).
  specialize (C1 eq_refl). specialize (C2 I1).
  rewrite C1, negb_involutive, insert_insert_eq in C2.
  exists g2. split; [exact L2|]. repeat split.
  - intro d. rewrite (isCompleted_insert g g2 date d cur C2).
    destruct (String.eqb_spec date d) as [<-|_]; reflexivity.
  - unfold GoalsManager.completedDays, length_number.
    rewrite C2, count_true_insert.
    rewrite (count_true_lookup (GoalsManager.completions g) date).
    reflexivity.
  - intros N E. rewrite C2 in E.
    assert (<[date:=cur]> (GoalsManager.completions g) !! date = None) as K
      by (rewrite E; exact N).
    rewrite lookup_insert_eq in K. discriminate K.
  - intros j h Lj Nj.
    destruct (toggle_lookup u goals (GoalsManager.id g) date cur j h Lj)
      as (h1 & Lh1 & _ & _ & _ & O1).
    specialize (O1 Nj). subst h1.
    destruct (toggle_lookup u _ (GoalsManager.id g) date (negb cur) j h Lh1)
      as (h2 & Lh2 & _ & _ & _ & O2).
    specialize (O2 Nj). subst h2. exact Lh2.
Qed.

Lemma toggle_twice_witness :
  let g := {| GoalsManager.id := "g1"; GoalsManager.title := "Read";
              GoalsManager.description := None;
              GoalsManager.target_days := 3;
              GoalsManager.completions := ∅ |} in
  exists g2 : GoalsManager.Goal,
    GoalsManager.handleToggleCompletion (Some "u"%string) None
      (GoalsManager.handleToggleCompletion (Some "u"%string) None [g]
         "g1" "2025-01-07" false)
      "g1" "2025-01-07" true !! 0%nat = Some g2 /\
    GoalsManager.completedDays g2 = GoalsManager.completedDays g /\
    GoalsManager.completions g2 <> GoalsManager.completions g.
Proof.
  cbv zeta.
  set (g := {| GoalsManager.id := "g1"; GoalsManager.title := "Read";
               GoalsManager.description := None;
               GoalsManager.target_days := 3;
               GoalsManager.completions := ∅ |}).
  destruct (toggle_twice "u" [g] "2025-01-07" 0%nat g eq_refl)
    as (g2 & L & _ & C & N & _).
  exists g2. split; [exact L|]. split; [exact C|].
  apply N. reflexivity.
Defined.

Lemma filter_sublist {A : Type} (f : A -> bool) (l : list A) :
  sublist (List.filter f l) l.
Proof.
  induction l as [|a l IH]; simpl.
  - constructor.
  - destruct (f a); constructor; exact IH.
Qed.

(** X16.  A confirmed, successful delete removes exactly the goals with
    the id given: a goal is in the list afterwards exactly when it was in it
    and has another id, the goals kept stay in their order, and deleting
    the same id again changes nothing.  Without a signed-in user, when the
    dialog is declined, or when the delete fails, the list is left as it
    was. *)
Theorem delete_removes_one_id (u : string) (goals : list GoalsManager.Goal)
    (goalId : string) :
  let after := GoalsManager.handleDeleteGoal (Some u) true None goals goalId in
  (forall g : GoalsManager.Goal,
     In g after <-> In g goals /\ GoalsManager.id g <> goalId) /\
  sublist after goals /\
  GoalsManager.handleDeleteGoal (Some u) true None after goalId = after /\
  (forall (c : bool) (e : option string),
     GoalsManager.handleDeleteGoal None c e goals goalId = goals) /\
  (forall e : option string,
     GoalsManager.handleDeleteGoal (Some u) false e goals goalId = goals) /\
  (forall err : string,
     GoalsManager.handleDeleteGoal (Some u) true (Some err) goals goalId
     = goals).
Proof.
  cbv zeta. unfold GoalsManager.handleDeleteGoal. simpl.
  split; [|split; [|split; [|repeat split]]].
  - intro g. rewrite filter_In, negb_true_iff.
    destruct (String.eqb_spec (GoalsManager.id g) goalId); intuition congruence.
  - apply filter_sublist.
  - induction goals as [|g goals IH]; simpl; [reflexivity|].
    destruct (negb (GoalsManager.id g =? goalId)%string) eqn:E; simpl.
    + rewrite E, IH. reflexivity.
    + exact IH.
Qed.

Lemma completionsOf_list_to_map (rows : list Rows.CompletionRow) :
  GoalsManager.completionsOf (Some rows)
  = list_to_map
      (rev (map (fun r => (Rows.date r, Rows.completed r)) rows)).
Proof.
  unfold GoalsManager.completionsOf, list_to_map. simpl.
  generalize (∅ : gmap string bool) as acc.
  induction rows as [|r rows IH]; intro acc; simpl.
  - reflexivity.
  - rewrite IH, foldr_app. reflexivity.
Qed.

Lemma fmap_is_map {A B : Type} (f : A -> B) (l : list A) : f <$> l = map f l.
Proof. induction l; simpl; f_equal; auto. Qed.

Lemma completionsOf_pairs (rows : list Rows.CompletionRow) :
  NoDup (map Rows.date rows) ->
  map_to_list (GoalsManager.completionsOf (Some rows))
  ≡ₚ map (fun r => (Rows.date r, Rows.completed r)) rows.
Proof.
  intro N. rewrite completionsOf_list_to_map.
  rewrite map_to_list_to_map.
  - symmetry. apply Permutation_rev.
  - rewrite fmap_is_map, map_rev, map_map. simpl.
    apply NoDup_ListNoDup, List.NoDup_rev, NoDup_ListNoDup. exact N.
Qed.

Lemma count_completed (rows : list Rows.CompletionRow) :
  length (List.filter (fun b : bool => b)
            (map snd (map (fun r => (Rows.date r, Rows.completed r)) rows)))
  = length (List.filter Rows.completed rows).
Proof.
  induction rows as [|r rows IH]; simpl; [reflexivity|].
  destruct (Rows.completed r); simpl; congruence.
Qed.

Lemma or_else_length {A : Type} (l : list A) :
  or_else (Some (length_number l)) 0 = length_number l.
Proof. destruct l; reflexivity. Qed.

(** X17.  What [loadGoals] builds from the completion rows of a goal whose
    dates are distinct, as the table guarantees: the object has the mark of
    each row under the row's date and no entry for any other date.  From no
    rows at all it builds the empty object. *)
Theorem loaded_marks (rows : list Rows.CompletionRow) :
  NoDup (map Rows.date rows) ->
  (forall r : Rows.CompletionRow,
     In r rows ->
     GoalsManager.completionsOf (Some rows) !! Rows.date r
     = Some (Rows.completed r)) /\
  (forall d : string,
     ~ In d (map Rows.date rows) ->
     GoalsManager.completionsOf (Some rows) !! d = None) /\
  GoalsManager.completionsOf None = ∅.
Proof.
  intro N. split; [|split; [|reflexivity]].
  - intros r I. apply elem_of_map_to_list.
    rewrite (completionsOf_pairs rows N).
    apply list_elem_of_In. apply in_map_iff. exists r. auto.
  - intros d I.
    destruct (GoalsManager.completionsOf (Some rows) !! d) as [b|] eqn:E;
      [|reflexivity].
    exfalso. apply I.
    apply elem_of_map_to_list in E.
    rewrite (completionsOf_pairs rows N) in E.
    apply list_elem_of_In, in_map_iff in E.
    destruct E as (r & Er & Ir). inversion Er; subst.
    apply in_map. exact Ir.
Qed.

Lemma loaded_marks_witness :
  GoalsManager.completionsOf
    (Some [ {| Rows.date := "2025-01-06"; Rows.completed := true |};
            {| Rows.date := "2025-01-07"; Rows.completed := false |} ])
    !! "2025-01-07"%string = Some false.
Proof.
  apply (proj1 (loaded_marks
                  [ {| Rows.date := "2025-01-06"; Rows.completed := true |};
                    {| Rows.date := "2025-01-07"; Rows.completed := false |} ]
                  ltac:(apply (bool_decide_unpack _); vm_compute; exact I))
               {| Rows.date := "2025-01-07"; Rows.completed := false |}).
  simpl. auto.
Defined.

(** X18.  The two pages count alike.  For goals loaded from the same rows,
    each with distinct completion dates, the count of completed days the
    goals page shows is the count the dashboard shows, and so is the width
    of the bar.  With a date repeated they can differ: two completed rows
    of the same date count 2 on the dashboard and 1 on the goals page. *)
Theorem pages_count_alike :
  (forall goalsData : option (list Rows.GoalRow),
     (forall (row : Rows.GoalRow) (rows : list Rows.CompletionRow),
        In row (default [] goalsData) ->
        Rows.daily_completions row = Some rows ->
        NoDup (map Rows.date rows)) ->
     map GoalsManager.completedDays (GoalsManager.transformedGoals goalsData)
     = map Dashboard.completions (Dashboard.transformedGoals goalsData) /\
     map GoalsManager.progressPercentage
         (GoalsManager.transformedGoals goalsData)
     = map Dashboard.width (Dashboard.transformedGoals goalsData)) /\
  (let row :=
     {| Rows.id := "g"; Rows.title := "t"; Rows.description := None;
        Rows.target_days := 3;
        Rows.daily_completions :=
          Some [ {| Rows.date := "2025-01-06"; Rows.completed := true |};
                 {| Rows.date := "2025-01-06"; Rows.completed := true |} ] |} in
   map Dashboard.completions (Dashboard.transformedGoals (Some [row])) = [2] /\
   map GoalsManager.completedDays (GoalsManager.transformedGoals (Some [row]))
   = [1]).
Proof.
  split; [|cbv zeta; split; vm_compute; reflexivity].
  intros [data|] N; simpl in *; [|split; reflexivity].
  assert (forall row : Rows.GoalRow,
            In row data ->
            GoalsManager.completedDays
              {| GoalsManager.id := Rows.id row;
                 GoalsManager.title := Rows.title row;
                 GoalsManager.description := Rows.description row;
                 GoalsManager.target_days := Rows.target_days row;
                 GoalsManager.completions :=
                   GoalsManager.completionsOf (Rows.daily_completions row) |}
            = Dashboard.completedCount (Rows.daily_completions row)) as C.
  { intros row I. unfold GoalsManager.completedDays, Dashboard.completedCount.
    simpl. destruct (Rows.daily_completions row) as [rows|] eqn:E.
    - simpl option_map. rewrite or_else_length. unfold length_number.
      rewrite (count_true_perm _ _ (completionsOf_pairs rows (N row rows I E))).
      rewrite count_completed. reflexivity.
    - reflexivity. }
  rewrite !map_map.
  split; apply map_ext_in; intros row I.
  - apply C, I.
  - unfold GoalsManager.progressPercentage, Dashboard.width. simpl.
    rewrite <- (C row I). reflexivity.
Qed.

Lemma pages_count_alike_witness :
  let data :=
    Some [ {| Rows.id := "g"; Rows.title := "t"; Rows.description := None;
              Rows.target_days := 3;
              Rows.daily_completions :=
                Some [ {| Rows.date := "2025-01-06"; Rows.completed := true |};
                       {| Rows.date := "2025-01-07"; Rows.completed := true |} ]
           |} ]%string in
  map GoalsManager.completedDays (GoalsManager.transformedGoals data)
  = map Dashboard.completions (Dashboard.transformedGoals data).
Proof.
  cbv zeta. apply (proj1 pages_count_alike).
  intros row rows [<-|[]] E. simpl in E. inversion E; subst.
  apply (bool_decide_unpack _). vm_compute. exact I.
Defined.

End GoalsState.

(** * Analytics: the weekly figures and the wellness status *)

Section AnalyticsFigures.
Import JSNum JSVal.
Local Open Scope js_scope.

Lemma length_number_cons {A : Type} (x : A) (l : list A) :
  length_number (x :: l) == 1 + length_number l.
Proof.
  unfold length_number. simpl length.
  rewrite Nat2Z.inj_succ, <- Z.add_1_l, inject_Z_plus. reflexivity.
Qed.









(** [getBurnoutLevel] and [getAdaptiveGoalSuggestion] on a score that is
    there are the functions of the scorer. *)
Lemma untyped_on_number (n : number) :
  Untyped.getBurnoutLevel (Some n) = Burnout.getBurnoutLevel n /\
  Untyped.getAdaptiveGoalSuggestion (Some n)
  = Burnout.getAdaptiveGoalSuggestion n.
Proof. split; reflexivity. Qed.

(** The status computed from a non-empty trend of rows of the query. *)
Lemma analytics_status_query_rows :
  (forall burnoutTrend : list Rows.CheckinRow,
     burnoutTrend <> [] ->
     (forall row : Rows.CheckinRow,
        In row burnoutTrend -> Analytics.from_trend_query row) ->
     Burnout.level (Analytics.burnoutInfo burnoutTrend) = Burnout.high) /\
  (forall burnoutTrend : list Rows.CheckinRow,
     burnoutTrend <> [] ->
     (forall row : Rows.CheckinRow,
        In row burnoutTrend -> Analytics.from_trend_query row) ->
     Analytics.latestBurnoutScore burnoutTrend = None).
Proof.
  assert (forall burnoutTrend : list Rows.CheckinRow,
     burnoutTrend <> [] ->
     (forall row : Rows.CheckinRow,
        In row burnoutTrend -> Analytics.from_trend_query row) ->
     Analytics.latestBurnoutScore burnoutTrend = None) as L.
  { intros trend NE H.
    unfold Analytics.latestBurnoutScore.
    assert ((length_number trend >? 0) = true) as G.
    { apply gtb_true. destruct trend as [|r t]; [contradiction|].
      rewrite length_number_cons.
      assert (N := length_number_nonneg t). lra. }
    rewrite G.
    destruct (trend !! (length trend - 1)%nat) as [row|] eqn:E;
      [|reflexivity].
    assert (In row trend) as Hin
      by (apply list_elem_of_In; eapply list_elem_of_lookup_2; exact E).
    specialize (H row Hin "burnoutScore"%string).
    destruct (row !! "burnoutScore"%string) as [v|] eqn:V; [|reflexivity].
    exfalso.
    assert ("burnoutScore"%string ∈ Analytics.selected_columns) as K
      by (apply H; eauto).
    assert (~ "burnoutScore"%string ∈ Analytics.selected_columns) as NK
      by (apply (bool_decide_unpack _); vm_compute; exact I).
    contradiction. }
  split; [|exact L].
  intros trend NE H. unfold Analytics.burnoutInfo.
  rewrite (L trend NE H). reflexivity.
Qed.

(** X21.  The wellness status of the analytics page does not depend on
    the scores stored.  The page reads the property [burnoutScore] of the
    latest row, and the rows of its query carry the columns selected, of
    which the score is [burnout_score]; so for every non-empty trend the
    score read is undefined, every comparison with it is false, and the
    page shows level high together with the healthy suggestion.  With no
    rows the score is 0: level low and the healthy suggestion. *)
Theorem analytics_status_ignores_scores :
  (forall burnoutTrend : list Rows.CheckinRow,
     burnoutTrend <> [] ->
     (forall row : Rows.CheckinRow,
        In row burnoutTrend -> Analytics.from_trend_query row) ->
     Analytics.latestBurnoutScore burnoutTrend = None /\
     Burnout.level (Analytics.burnoutInfo burnoutTrend) = Burnout.high /\
     Analytics.adaptiveSuggestion burnoutTrend
     = "Your burnout levels look healthy - you can maintain or slightly increase your goals."%string) /\
  (Analytics.latestBurnoutScore [] = Some 0 /\
   Burnout.level (Analytics.burnoutInfo []) = Burnout.low /\
   Analytics.adaptiveSuggestion []
   = "Your burnout levels look healthy - you can maintain or slightly increase your goals."%string).
Proof.
  split; [|repeat split; vm_compute; reflexivity].
  intros trend NE H.
  assert (L := proj2 analytics_status_query_rows trend NE H).
  split; [exact L|].
  unfold Analytics.burnoutInfo, Analytics.adaptiveSuggestion.
  rewrite L. split; reflexivity.
Qed.

Lemma analytics_status_ignores_scores_witness :
  let row : Rows.CheckinRow :=
    {[ "burnout_score"%string := 1.5; "stress_level"%string := 1;
       "mood_level"%string := 5; "sleep_hours"%string := 8 ]} in
  Burnout.level (Analytics.burnoutInfo [row]) = Burnout.high.
Proof.
  cbv zeta.
  apply (proj1 analytics_status_ignores_scores).
  - discriminate.
  - intros row [<-|[]] key. split.
    + intros [v V].
      apply lookup_insert_Some in V as [[<- _]|[_ V]]; [set_solver|].
      apply lookup_insert_Some in V as [[<- _]|[_ V]]; [set_solver|].
      apply lookup_insert_Some in V as [[<- _]|[_ V]]; [set_solver|].
      apply lookup_singleton_Some in V as [<- _]. set_solver.
    + unfold Analytics.selected_columns. intro K.
      repeat (apply elem_of_cons in K as [->|K]);
        [| | | |apply elem_of_nil in K; contradiction];
        eexists; vm_compute; reflexivity.
Defined.

(** X22.  The two pages can contradict each other.  For a check-in whose
    stored score is 6 or less the dashboard shows level low or moderate,
    while the analytics page, on any non-empty trend of rows of its query,
    shows level high. *)
Theorem pages_disagree_on_status (c : Dashboard.TodayCheckin)
    (burnoutTrend : list Rows.CheckinRow) :
  Dashboard.burnout_score c <= 6 ->
  burnoutTrend <> [] ->
  (forall row : Rows.CheckinRow,
     In row burnoutTrend -> Analytics.from_trend_query row) ->
  exists info : Burnout.BurnoutInfo,
    Dashboard.burnoutInfo (Some c) = Some info /\
    Burnout.level info <> Burnout.high /\
    Burnout.level (Analytics.burnoutInfo burnoutTrend) = Burnout.high.
Proof.
  intros S NE H. eexists. split; [reflexivity|]. split.
  - intro E. apply level_high_iff in E. lra.
  - apply (proj1 analytics_status_query_rows burnoutTrend NE H).
Qed.

Lemma pages_disagree_on_status_witness :
  exists info : Burnout.BurnoutInfo,
    Dashboard.burnoutInfo
      (Some {| Dashboard.checkin_id := "c1"; Dashboard.stress_level := 1;
               Dashboard.sleep_hours := 8; Dashboard.mood_level := 5;
               Dashboard.time_spent_hours := 8;
               Dashboard.burnout_score := 0 |}) = Some info /\
    Burnout.level info <> Burnout.high /\
    Burnout.level
      (Analytics.burnoutInfo
         [ {[ "burnout_score"%string := 0; "stress_level"%string := 1;
              "mood_level"%string := 5; "sleep_hours"%string := 8 ]} ])
    = Burnout.high.
Proof.
  apply pages_disagree_on_status.
  - simpl. lra.
  - discriminate.
  - intros row [<-|[]] key. split.
    + intros [v V].
      apply lookup_insert_Some in V as [[<- _]|[_ V]]; [set_solver|].
      apply lookup_insert_Some in V as [[<- _]|[_ V]]; [set_solver|].
      apply lookup_insert_Some in V as [[<- _]|[_ V]]; [set_solver|].
      apply lookup_singleton_Some in V as [<- _]. set_solver.
    + unfold Analytics.selected_columns. intro K.
      repeat (apply elem_of_cons in K as [->|K]);
        [| | | |apply elem_of_nil in K; contradiction];
        eexists; vm_compute; reflexivity.
Defined.






End AnalyticsFigures.
